(** * json_cleaner.js: the credit-bureau payload normaliser

    A shallow embedding of [src/code-samples/json_cleaner.js]
    ([parseMonetaryValue], [processDetailBlock], [cleanCreditData]) together
    with the part of the ECMAScript runtime these three functions rely on:
    IEEE-754 binary64 numbers, [ToString], [parseInt], [parseFloat],
    [String.prototype.trim] and property reads on JSON values.

    Conventions of the model.
    - A JavaScript number is a [spec_float] of the Standard Library at
      precision 53 and maximal exponent 1024 (binary64, one NaN).
    - A JavaScript string is a [string] holding its UTF-8 bytes.  Every
      character the program inspects (digits, signs, dot, comma, the ASCII
      white space) is a single byte; the other white space code points are
      recognised by their UTF-8 encodings.
    - A JSON object is the list of its own properties in enumeration order,
      each name once (of a repeated name a read finds the first entry).
    - Property reads are reads of own properties.  Every name the program
      reads is a literal that no built-in prototype or exotic object
      defines ([body], [REGISTRO] and the upper-case bureau codes), so the
      prototype chain is never reached; the unwrap key and the rename map
      that [processDetailBlock] receives are held to the same convention
      by [dataKeyOk] and [renameMapOk].
    - An exception is an explicit [Throw] result. *)

From Stdlib Require Import ZArith List String Ascii Bool Lia.
From Stdlib Require Import SpecFloat DecimalString.
Import ListNotations.

Local Open Scope string_scope.
Local Open Scope Z_scope.

(** ** Numbers: binary64 *)

Module Num.

Definition number : Type := spec_float.

Definition prec : Z := 53.
Definition emax : Z := 1024.

Definition nan : number := S754_nan.
Definition zero : number := S754_zero false.

(** The Number value of the non-negative rational [n / d] ([0 <= n],
    [0 < d]) with sign [neg]: round to nearest, ties to even, overflow to
    an infinity.  The quotient is taken with at least two guard bits and the
    position of the remainder is handed to the library's rounding. *)
Definition roundRatio (neg : bool) (n d : Z) : number :=
  if n =? 0 then S754_zero neg
  else
    let k := Z.max 0 (Z.log2 d - Z.log2 n + 56) in
    let '(q, r) := Z.div_eucl (Z.shiftl n k) d in
    binary_round_aux prec emax neg q (- k) (new_location d r).

(** [m * 10 ^ e] as a Number value. *)
Definition ofDecimal (neg : bool) (m e : Z) : number :=
  if 0 <=? e then roundRatio neg (m * 10 ^ e) 1
  else roundRatio neg m (10 ^ (- e)).

Definition ofZ (z : Z) : number := roundRatio (z <? 0) (Z.abs z) 1.

(** The [+] of two numbers. *)
Definition add (x y : number) : number := SFadd prec emax x y.

(** ToBoolean of a number: [+0], [-0] and NaN are falsy. *)
Definition truthy (x : number) : bool :=
  match x with
  | S754_zero _ | S754_nan => false
  | _ => true
  end.

Definition isNaN (x : number) : bool :=
  match x with S754_nan => true | _ => false end.

End Num.

Definition number : Type := Num.number.

(** ** Strings *)

Module Str.

Definition code (c : ascii) : N := N_of_ascii c.

Definition isDigit (c : ascii) : bool :=
  ((48 <=? code c) && (code c <=? 57))%N.

Definition isHexDigit (c : ascii) : bool :=
  (isDigit c
   || ((97 <=? code c) && (code c <=? 102))
   || ((65 <=? code c) && (code c <=? 70)))%N.

(** Value of a digit in radix up to 16 ([0] for any other character). *)
Definition digitValue (c : ascii) : Z :=
  let n := Z.of_N (code c) in
  if isDigit c then n - 48
  else if ((97 <=? code c) && (code c <=? 102))%N then n - 87
  else if ((65 <=? code c) && (code c <=? 70))%N then n - 55
  else 0.

(** The mathematical integer a digit string denotes in [radix]. *)
Fixpoint valueFrom (radix acc : Z) (s : string) : Z :=
  match s with
  | EmptyString => acc
  | String c r => valueFrom radix (radix * acc + digitValue c) r
  end.

Definition decimalValue (s : string) : Z := valueFrom 10 0 s.

(** Longest prefix of characters satisfying [p], and the rest. *)
Fixpoint span (p : ascii -> bool) (s : string) : string * string :=
  match s with
  | EmptyString => (EmptyString, EmptyString)
  | String c r =>
      if p c then let '(a, b) := span p r in (String c a, b)
      else (EmptyString, s)
  end.

Fixpoint repeat (c : ascii) (n : nat) : string :=
  match n with
  | O => EmptyString
  | S k => String c (repeat c k)
  end.

(** White space and line terminators of ECMAScript, by UTF-8 encoding:
    U+0009..U+000D and U+0020 on one byte; U+00A0 on two; U+1680,
    U+2000..U+200A, U+2028, U+2029, U+202F, U+205F, U+3000 and U+FEFF on
    three. *)
Definition ws1 (a : N) : bool :=
  (((9 <=? a) && (a <=? 13)) || (a =? 32))%N.

Definition ws2 (a b : N) : bool := ((a =? 194) && (b =? 160))%N.

Definition ws3 (a b c : N) : bool :=
  (((a =? 225) && (b =? 154) && (c =? 128))
   || ((a =? 226) && (b =? 128)
       && (((128 <=? c) && (c <=? 138)) || (c =? 168) || (c =? 169) || (c =? 175)))
   || ((a =? 226) && (b =? 129) && (c =? 159))
   || ((a =? 227) && (b =? 128) && (c =? 128))
   || ((a =? 239) && (b =? 187) && (c =? 191)))%N.

(** Drop the leading code points recognised by [p1] (one byte), [p2] (two
    bytes) or [p3] (three bytes). *)
Fixpoint dropEncoded (p1 : N -> bool) (p2 : N -> N -> bool)
  (p3 : N -> N -> N -> bool) (s : list ascii) : list ascii :=
  match s with
  | a :: r1 =>
      if p1 (code a) then dropEncoded p1 p2 p3 r1
      else
        match r1 with
        | b :: r2 =>
            if p2 (code a) (code b) then dropEncoded p1 p2 p3 r2
            else
              match r2 with
              | c :: r3 =>
                  if p3 (code a) (code b) (code c) then dropEncoded p1 p2 p3 r3
                  else s
              | [] => s
              end
        | [] => s
        end
  | [] => s
  end.

(** TrimString(s, start), on the bytes of the string. *)
Definition dropWs : list ascii -> list ascii := dropEncoded ws1 ws2 ws3.

(** The same scan over the reversed bytes: the bytes of a code point
    arrive last byte first. *)
Definition dropWsRev : list ascii -> list ascii :=
  dropEncoded ws1 (fun a b => ws2 b a) (fun a b c => ws3 c b a).

Definition trimStart (s : string) : string :=
  string_of_list_ascii (dropWs (list_ascii_of_string s)).

(** [String.prototype.trim]: TrimString(s, start+end). *)
Definition trim (s : string) : string :=
  string_of_list_ascii
    (List.rev (dropWsRev (List.rev (dropWs (list_ascii_of_string s))))).

(** [s.replace(/\./g, "")]: every dot removed. *)
Fixpoint removeDots (s : string) : string :=
  match s with
  | EmptyString => EmptyString
  | String c r => if Ascii.eqb c "." then removeDots r else String c (removeDots r)
  end.

(** [s.replace(",", ".")]: a string pattern replaces its first occurrence
    only. *)
Fixpoint replaceFirstComma (s : string) : string :=
  match s with
  | EmptyString => EmptyString
  | String c r => if Ascii.eqb c "," then String "." r else String c (replaceFirstComma r)
  end.

(** An optional leading sign: is it a minus, and the rest. *)
Definition sign (s : string) : bool * string :=
  match s with
  | String c r =>
      if Ascii.eqb c "-" then (true, r)
      else if Ascii.eqb c "+" then (false, r)
      else (false, s)
  | EmptyString => (false, s)
  end.

End Str.

(** ** Number to string, string to number *)


(** Decimal digits of a non-negative integer. *)
Definition digitsOf (z : Z) : string :=
  NilZero.string_of_uint (N.to_uint (Z.to_N z)).

Module NumberToString.

(** Is [n / d >= 10 ^ e]? *)
Definition geqPow10 (n d e : Z) : bool :=
  if 0 <=? e then d * 10 ^ e <=? n else d <=? n * 10 ^ (- e).

(** The least [e], counting up from the start value, with
    [n / d < 10 ^ e]. *)
Fixpoint decimalExponent (fuel : nat) (n d e : Z) : Z :=
  match fuel with
  | O => e
  | S f => if geqPow10 n d e then decimalExponent f n d (e + 1) else e
  end.

Definition same (x y : number) : bool :=
  match x, y with
  | S754_finite s1 m1 e1, S754_finite s2 m2 e2 =>
      Bool.eqb s1 s2 && Pos.eqb m1 m2 && (e1 =? e2)
  | _, _ => false
  end.

(** A carry out of [k] digits moves the decimal exponent. *)
Definition normalise (s k n : Z) : Z * Z * Z :=
  if s =? 10 ^ k then (10 ^ (k - 1), k, n + 1) else (s, k, n).

(** Number::toString, step 5, for the positive finite [x = num / den] with
    [10 ^ (n - 1) <= x < 10 ^ n]: the fewest digits [k] and the digit
    integer [s] such that [s * 10 ^ (n - k)] reads back as [x]; of two such
    [s] the one closer to [x], the even one on a tie.  Only the two
    neighbours of [x / 10 ^ (n - k)] can qualify. *)
Fixpoint shortest (fuel : nat) (x : number) (num den n k : Z) : Z * Z * Z :=
  let '(yn, yd) :=
    if 0 <=? n - k then (num, den * 10 ^ (n - k)) else (num * 10 ^ (k - n), den) in
  let lo := yn / yd in
  let hi := lo + 1 in
  let okLo := same (Num.ofDecimal false lo (n - k)) x in
  let okHi := same (Num.ofDecimal false hi (n - k)) x in
  match fuel with
  | O => (lo, k, n)
  | S f =>
      match okLo, okHi with
      | true, true =>
          match 2 * yn ?= (2 * lo + 1) * yd with
          | Lt => (lo, k, n)
          | Gt => normalise hi k n
          | Eq => if Z.even lo then (lo, k, n) else normalise hi k n
          end
      | true, false => (lo, k, n)
      | false, true => normalise hi k n
      | false, false => shortest f x num den n (k + 1)
      end
  end.

Definition zeros (n : Z) : string := Str.repeat "0" (Z.to_nat n).

(** Number::toString, steps 6 to 12. *)
Definition layout (s k n : Z) : string :=
  let ds := digitsOf s in
  if (-5 <=? n) && (n <=? 21) then
    if k <=? n then ds ++ zeros (n - k)
    else if 0 <? n then
      substring 0 (Z.to_nat n) ds ++ "." ++ substring (Z.to_nat n) (Z.to_nat (k - n)) ds
    else "0." ++ zeros (- n) ++ ds
  else
    let e := n - 1 in
    let es := (if e <? 0 then "-" else "+") ++ digitsOf (Z.abs e) in
    if k =? 1 then ds ++ "e" ++ es
    else substring 0 1 ds ++ "." ++ substring 1 (Z.to_nat (k - 1)) ds ++ "e" ++ es.

(** Number::toString(x, 10). *)
Definition numberToString (x : number) : string :=
  match x with
  | S754_nan => "NaN"
  | S754_zero _ => "0"
  | S754_infinity neg => if neg then "-Infinity" else "Infinity"
  | S754_finite neg m e =>
      let '(num, den) := if 0 <=? e then (Zpos m * 2 ^ e, 1) else (Zpos m, 2 ^ (- e)) in
      let n := decimalExponent 640 num den (-324) in
      let '(s, k, n') := shortest 17 (S754_finite false m e) num den n 1 in
      (if neg then "-" else "") ++ layout s k n'
  end.

End NumberToString.

Definition numberToString := NumberToString.numberToString.

(** [parseFloat] of a string: white space is skipped, then the longest
    prefix that is a StrDecimalLiteral is read (an optional sign, then
    [Infinity], or digits with an optional fraction and an optional
    exponent); NaN when there is no such prefix. *)
Definition parseFloat (inputString : string) : number :=
  let trimmed := Str.trimStart inputString in
  let '(neg, u) := Str.sign trimmed in
  if prefix "Infinity" u then S754_infinity neg
  else
    let '(intPart, r1) := Str.span Str.isDigit u in
    let '(fracPart, r2) :=
      match r1 with
      | String "." r => Str.span Str.isDigit r
      | _ => (EmptyString, r1)
      end in
    if (String.length intPart + String.length fracPart =? 0)%nat then Num.nan
    else
      let exponent :=
        match r2 with
        | String c r3 =>
            if Ascii.eqb c "e" || Ascii.eqb c "E" then
              let '(eneg, r4) := Str.sign r3 in
              let '(expDigits, _) := Str.span Str.isDigit r4 in
              if (String.length expDigits =? 0)%nat then 0
              else if eneg then - Str.decimalValue expDigits
              else Str.decimalValue expDigits
            else 0
        | EmptyString => 0
        end in
      Num.ofDecimal neg (Str.decimalValue (intPart ++ fracPart))
        (exponent - Z.of_nat (String.length fracPart)).

(** [parseInt(s)] of a string with no radix argument: white space is
    skipped, a sign is read, a [0x] or [0X] prefix selects radix 16
    (radix 10 otherwise), and the longest run of digits is the integer;
    NaN when that run is empty. *)
Definition parseIntString (inputString : string) : number :=
  let trimmed := Str.trimStart inputString in
  let '(neg, unsigned) := Str.sign trimmed in
  let '(radix, body) :=
    match unsigned with
    | String "0" (String c r) =>
        if Ascii.eqb c "x" || Ascii.eqb c "X" then (16, r) else (10, unsigned)
    | _ => (10, unsigned)
    end in
  let '(digits, _) :=
    Str.span (if radix =? 16 then Str.isHexDigit else Str.isDigit) body in
  if (String.length digits =? 0)%nat then Num.nan
  else Num.roundRatio neg (Str.valueFrom radix 0 digits) 1.

(** ** Values and exceptions *)

(** What an evaluation yields: a value, or a thrown exception. *)
Inductive exn : Type :=
| TypeError.

Inductive result (A : Type) : Type :=
| Ok (a : A)
| Throw (e : exn).

Arguments Ok {A} a.
Arguments Throw {A} e.

Definition bind {A B : Type} (r : result A) (k : A -> result B) : result B :=
  match r with
  | Ok a => k a
  | Throw e => Throw e
  end.

Notation "x <- c ;; k" := (bind c (fun x => k))
  (at level 61, c at next level, right associativity).

#[local] Unset Elimination Schemes.

(** The values a JSON document denotes, and [undefined], which property
    reads produce and an argument may be. *)
Inductive value : Type :=
| VUndefined
| VNull
| VBool (b : bool)
| VNum (n : number)
| VStr (s : string)
| VArr (items : list value)
| VObj (fields : list (string * value)).

#[local] Set Elimination Schemes.

(** A record built by the program: its own properties in creation order. *)
Definition record : Type := list (string * value).

(** ToBoolean. *)
Definition truthy (v : value) : bool :=
  match v with
  | VUndefined | VNull => false
  | VBool b => b
  | VNum n => Num.truthy n
  | VStr s => negb (String.length s =? 0)%nat
  | VArr _ | VObj _ => true
  end.

(** [typeof v === "object"]: null, arrays and objects. *)
Definition typeofObject (v : value) : bool :=
  match v with
  | VNull | VArr _ | VObj _ => true
  | _ => false
  end.

Definition isNull (v : value) : bool :=
  match v with VNull => true | _ => false end.

Definition isArray (v : value) : bool :=
  match v with VArr _ => true | _ => false end.

(** [v === s] for a string literal [s]. *)
Definition strictEqStr (v : value) (s : string) : bool :=
  match v with
  | VStr t => String.eqb t s
  | _ => false
  end.

(** [a || b]. *)
Definition or_else (a b : value) : value := if truthy a then a else b.

(** Own property of a name in a property list, [undefined] when there is
    none. *)
Fixpoint lookup (fields : list (string * value)) (k : string) : value :=
  match fields with
  | [] => VUndefined
  | (k', v) :: rest => if String.eqb k' k then v else lookup rest k
  end.

Fixpoint hasOwn (fields : list (string * value)) (k : string) : bool :=
  match fields with
  | [] => false
  | (k', _) :: rest => String.eqb k' k || hasOwn rest k
  end.

(** Property names the built-in prototypes and the exotic objects do not
    define: a read of such a name on a JSON value finds an own property of
    an object or nothing.  The bureau's field codes, which start with an
    upper-case letter, are of this kind; so is [body]. *)
Definition plainKey (k : string) : bool :=
  match k with
  | String c _ => ((65 <=? Str.code c) && (Str.code c <=? 90))%N
  | EmptyString => false
  end.

(** Names a record can take as an ordinary own property, added after the
    existing ones: names starting with a lower-case letter (no array
    index, not [__proto__]). *)
Definition outputName (k : string) : bool :=
  match k with
  | String c _ => ((97 <=? Str.code c) && (Str.code c <=? 122))%N
  | EmptyString => false
  end.

(** The value of [v[k]] for [v] neither null nor undefined and [k] a
    [plainKey] (or [body]): primitives and arrays have no such property. *)
Definition own (v : value) (k : string) : value :=
  match v with
  | VObj fields => lookup fields k
  | _ => VUndefined
  end.

(** [v.k], [v[k]]: a TypeError on null and undefined. *)
Definition get (v : value) (k : string) : result value :=
  match v with
  | VUndefined | VNull => Throw TypeError
  | _ => Ok (own v k)
  end.

(** [v?.k], [v?.[k]]. *)
Definition getOpt (v : value) (k : string) : value :=
  match v with
  | VUndefined | VNull => VUndefined
  | _ => own v k
  end.

(** [r[k] = v] on a record under construction, [k] an [outputName]: an
    existing property keeps its place and takes the new value, a new one is
    added last. *)
Fixpoint setProp (r : record) (k : string) (v : value) : record :=
  match r with
  | [] => [(k, v)]
  | (k', v') :: rest =>
      if String.eqb k' k then (k', v) :: rest else (k', v') :: setProp rest k v
  end.

(** ToString.  An array is joined with commas, null and undefined elements
    as empty strings.  For an object the property [toString] is read first:
    without an own property of that name it is the built-in one and the
    result is [[object Object]]; with one, the value read is a JSON value,
    hence not callable, and so is an own [valueOf], while the built-in
    [valueOf] returns the object itself: no primitive is obtained and a
    TypeError is thrown.  The model sets no bound on the depth of nested
    arrays: the stack limit of an engine, which ends the join of a very
    deeply nested array with a RangeError, is outside it. *)
Fixpoint toString (v : value) : result string :=
  match v with
  | VUndefined => Ok "undefined"
  | VNull => Ok "null"
  | VBool b => Ok (if b then "true" else "false")
  | VNum n => Ok (numberToString n)
  | VStr s => Ok s
  | VArr items =>
      (fix join (l : list value) : result string :=
         match l with
         | [] => Ok ""
         | x :: rest =>
             first <- match x with
                      | VUndefined | VNull => Ok ""
                      | _ => toString x
                      end ;;
             match rest with
             | [] => Ok first
             | _ :: _ => others <- join rest ;; Ok (first ++ "," ++ others)
             end
         end) items
  | VObj fields =>
      if hasOwn fields "toString" then Throw TypeError
      else Ok "[object Object]"
  end.

(** [parseInt(v)]. *)
Definition parseInt (v : value) : result number :=
  inputString <- toString v ;;
  Ok (parseIntString inputString).

(** [n || 0] on numbers. *)
Definition orZero (n : number) : number :=
  if Num.truthy n then n else Num.zero.

(** ** The program *)

(** *** parseMonetaryValue (source lines 19-23) *)

Definition parseMonetaryValue (valueStr : value) : number :=
  match valueStr with
  | VStr str => parseFloat (Str.replaceFirstComma (Str.removeDots str))
  | _ => Num.zero
  end.

(** *** processDetailBlock (source lines 37-80) *)

(** A rename map: the pairs (source key, output name) of [keyMap] in the
    order [for ... in] visits them. *)
Definition renameMap : Type := list (string * string).

(** The loop of lines 71-76 over the remaining pairs of [keyMap]. *)
Fixpoint renameFields (item : value) (keyMap : renameMap) (newItem : record)
  : result record :=
  match keyMap with
  | [] => Ok newItem
  | (oldKey, newKey) :: rest =>
      present <- get item oldKey ;;
      if truthy present then
        candidate <- get item oldKey ;;
        if negb (strictEqStr candidate "-") then
          copied <- get item oldKey ;;
          renameFields item rest (setProp newItem newKey copied)
        else renameFields item rest newItem
      else renameFields item rest newItem
  end.

(** The callback of [.map] (lines 67-78): [None] is the [null] it returns
    for an element that is not an object. *)
Definition mapItem (keyMap : renameMap) (item : value) : result (option record) :=
  if negb (typeofObject item) || isNull item then Ok None
  else
    newItem <- renameFields item keyMap [] ;;
    Ok (Some newItem).

(** The predicate of [.filter] (line 79). *)
Definition keepItem (item : option record) : bool :=
  match item with
  | None => false
  | Some r => (0 <? List.length r)%nat
  end.

Fixpoint mapM {A B : Type} (f : A -> result B) (l : list A) : result (list B) :=
  match l with
  | [] => Ok []
  | x :: rest =>
      y <- f x ;;
      ys <- mapM f rest ;;
      Ok (y :: ys)
  end.

(** What is left of the mapped array after [.filter]. *)
Fixpoint kept (l : list (option record)) : list record :=
  match l with
  | [] => []
  | x :: rest =>
      if keepItem x then
        match x with
        | Some r => r :: kept rest
        | None => kept rest
        end
      else kept rest
  end.

(** Lines 43-60: the value bound to [rawData], or [None] for the fallback
    [return []].  [dataKey] is [None] for a [null] argument. *)
Definition selectRawData (detailBlock : value) (dataKey : option string)
  : result (option value) :=
  let single :=
    if typeofObject detailBlock then
      registro <- get detailBlock "REGISTRO" ;;
      if strictEqStr registro "S" then Ok (Some detailBlock) else Ok None
    else Ok None in
  if isArray detailBlock then Ok (Some detailBlock)
  else
    match dataKey with
    | Some key =>
        if negb (String.length key =? 0)%nat then
          registro <- get detailBlock "REGISTRO" ;;
          if strictEqStr registro "S" then
            wrapped <- get detailBlock key ;;
            if truthy wrapped then
              rawData <- get detailBlock key ;;
              Ok (Some rawData)
            else single
          else single
        else single
    | None => single
    end.

(** Line 63. *)
Definition toDataArray (rawData : value) : list value :=
  match rawData with
  | VArr items => items
  | _ => [rawData]
  end.

Definition processDetailBlock (detailBlock : value) (dataKey : option string)
  (keyMap : renameMap) : result (list record) :=
  if negb (truthy detailBlock) then Ok []
  else
    selected <- selectRawData detailBlock dataKey ;;
    match selected with
    | None => Ok []
    | Some rawData =>
        mapped <- mapM (mapItem keyMap) (toDataArray rawData) ;;
        Ok (kept mapped)
    end.

(** *** cleanCreditData (source lines 89-208) *)

Record Identification : Type := {
  name : value;
  document : value;
  birthDate : value;
  taxStatus : value;
  consumerStatus : value
}.

Record Location : Type := {
  address : string;
  city : value;
  state : value;
  zipCode : value
}.

Record FinancialSummary : Type := {
  totalDebtsQty : number;
  totalDebtsValue : number;
  protestsQty : number;
  protestsValue : number;
  legalActionsQty : number;
  bouncedChecksQty : number
}.

Record NegativeDetails : Type := {
  debts : list record;
  protests : list record;
  civilActions : list record;
  bankruptcy : list record
}.

Record AiContextPayload : Type := {
  identification : Identification;
  location : Location;
  financialSummary : FinancialSummary;
  riskScore : list record;
  negativeDetails : NegativeDetails;
  corporateParticipation : list record
}.

Definition riskScoreMap : renameMap :=
  [("NOMESCORE", "scoreName"); ("SCORE", "points");
   ("CLASSIFICACAOALFABETICA", "ratingClass"); ("TEXTO", "description");
   ("DESCRICAONATUREZA", "type")].

Definition debtsMap : renameMap :=
  [("DATAOCORRENCIA", "date"); ("VALOR", "value");
   ("INFORMANTE", "creditor"); ("CONTRATO", "contractId")].

Definition protestsMap : renameMap :=
  [("DATAOCORRENCIA", "date"); ("VALOR", "value");
   ("CIDADE", "city"); ("CARTORIO", "registryOffice")].

Definition civilActionsMap : renameMap :=
  [("DATADISTRIBUICAO", "distributionDate"); ("VALOR", "value");
   ("ACAOCIVEL", "actionType"); ("AUTOR", "plaintiff")].

Definition bankruptcyMap : renameMap :=
  [("RAZAOSOCIAL", "companyName"); ("TIPOOCORRENCIA", "type");
   ("DATAOCORRENCIA", "date")].

Definition participationMap : renameMap :=
  [("RAZAOSOCIAL", "companyName"); ("NUMERODOCUMENTOB", "cnpj");
   ("FUNCAO", "role"); ("DATADEENTRADA", "entryDate");
   ("VALOREMPERCENTUAL", "ownershipPercentage")].

(** Line 91: the node at [body], [SPCA-XML], [RESPOSTA], [ACERTA], or an
    empty object. *)
Definition creditReportOf (inputData : value) : value :=
  or_else
    (getOpt (getOpt (getOpt (getOpt inputData "body") "SPCA-XML") "RESPOSTA") "ACERTA")
    (VObj []).

(** [creditReport[section]?.[field]]. *)
Definition field (creditReport : value) (section fieldName : string)
  : result value :=
  node <- get creditReport section ;;
  Ok (getOpt node fieldName).

(** Lines 117-119: the template literal and its [.trim()]. *)
Definition addressOf (creditReport : value) : result string :=
  streetType <- field creditReport "LOCALIZACAO" "TIPOLOGRADOURO" ;;
  part1 <- toString (or_else streetType (VStr "")) ;;
  streetName <- field creditReport "LOCALIZACAO" "NOMELOGRADOURO" ;;
  part2 <- toString (or_else streetName (VStr "")) ;;
  streetNumber <- field creditReport "LOCALIZACAO" "NUMEROLOGRADOURO" ;;
  part3 <- toString (or_else streetNumber (VStr "")) ;;
  Ok (Str.trim (part1 ++ " " ++ part2 ++ ", " ++ part3)).

(** [parseInt(creditReport[section]?.[field] || "0")]. *)
Definition countOf (creditReport : value) (section fieldName : string)
  : result number :=
  raw <- field creditReport section fieldName ;;
  parseInt (or_else raw (VStr "0")).

(** [processDetailBlock(creditReport[section], dataKey, keyMap)]. *)
Definition detailOf (creditReport : value) (section : string)
  (dataKey : option string) (keyMap : renameMap) : result (list record) :=
  block <- get creditReport section ;;
  processDetailBlock block dataKey keyMap.

Definition cleanCreditData (inputData : value) : result AiContextPayload :=
  let creditReport := creditReportOf inputData in
  debitSummary <- get creditReport "RESUMO-OCORRENCIAS-DE-DEBITOS" ;;
  parsedPrincipal <- parseInt (getOpt debitSummary "TOTALDEVEDOR") ;;
  let qtyPrincipal := orZero parsedPrincipal in
  parsedGuarantor <- parseInt (getOpt debitSummary "TOTALAVALISTA") ;;
  let qtyGuarantor := orZero parsedGuarantor in
  let combinedDebitQty := Num.add qtyPrincipal qtyGuarantor in
  let valPrincipal := parseMonetaryValue (getOpt debitSummary "VALORACOMULADO") in
  let valGuarantor := parseMonetaryValue (getOpt debitSummary "VALORAVALISTA") in
  let combinedDebitValue := Num.add valPrincipal valGuarantor in
  name_ <- field creditReport "IDENTIFICACAO" "NOME" ;;
  document_ <- field creditReport "IDENTIFICACAO" "DOCUMENTO" ;;
  birthDate_ <- field creditReport "IDENTIFICACAO" "DATANASCIMENTO" ;;
  taxStatus_ <- field creditReport "IDENTIFICACAO" "SITUACAORECEITA" ;;
  consumerStatus_ <- field creditReport "STATUS-CONSUMIDOR" "MENSAGEM" ;;
  address_ <- addressOf creditReport ;;
  city_ <- field creditReport "LOCALIZACAO" "CIDADE" ;;
  state_ <- field creditReport "LOCALIZACAO" "UNIDADEFEDERATIVA" ;;
  zipCode_ <- field creditReport "LOCALIZACAO" "CEP" ;;
  protestsQty_ <- countOf creditReport "RESUMO-TITULOS-PROTESTADOS" "TOTAL" ;;
  protestsRaw <- field creditReport "RESUMO-TITULOS-PROTESTADOS" "VALORACUMULADO" ;;
  let protestsValue_ := parseMonetaryValue protestsRaw in
  legalActionsQty_ <- countOf creditReport "RESUMO-DE-ACOES-CIVEIS" "QUANTIDADE" ;;
  bouncedChecksQty_ <-
    countOf creditReport "RESUMO-DEVOLUCOES-INFORMADAS-PELO-CCF" "TOTALOCORRENCAS" ;;
  riskScore_ <-
    detailOf creditReport "SCORE-CLASSIFICACAO-VARIOS-MODELOS" None riskScoreMap ;;
  debts_ <- detailOf creditReport "DEBITOS" (Some "DEBITO") debtsMap ;;
  protests_ <-
    detailOf creditReport "TITULOS-PROTESTADOS" (Some "TITULO-PROTESTADO") protestsMap ;;
  civilActions_ <-
    detailOf creditReport "RELACAO-DE-ACOES-CIVEIS" (Some "ACAO-CIVEL") civilActionsMap ;;
  bankruptcy_ <-
    detailOf creditReport "RELACAO-FALENCIA-RECUPERACAO-JUDICIAL"
      (Some "FALENCIA-RECUPERACAO-JUDICIAL") bankruptcyMap ;;
  corporateParticipation_ <-
    detailOf creditReport "PARTICIPACOES-DO-DOCUMENTO-CONSULTADO"
      (Some "PARTICIPACAO-EM-EMPRESA") participationMap ;;
  Ok {|
    identification := {|
      name := name_;
      document := document_;
      birthDate := birthDate_;
      taxStatus := taxStatus_;
      consumerStatus := consumerStatus_ |};
    location := {|
      address := address_;
      city := city_;
      state := state_;
      zipCode := zipCode_ |};
    financialSummary := {|
      totalDebtsQty := combinedDebitQty;
      totalDebtsValue := combinedDebitValue;
      protestsQty := protestsQty_;
      protestsValue := protestsValue_;
      legalActionsQty := legalActionsQty_;
      bouncedChecksQty := bouncedChecksQty_ |};
    riskScore := riskScore_;
    negativeDetails := {|
      debts := debts_;
      protests := protests_;
      civilActions := civilActions_;
      bankruptcy := bankruptcy_ |};
    corporateParticipation := corporateParticipation_ |}.

(** The payload as the JavaScript object it is, properties in the order of
    the object literal. *)
Definition recordsValue (l : list record) : value := VArr (map VObj l).

Definition payloadValue (p : AiContextPayload) : value :=
  VObj
    [("identification",
      VObj [("name", name (identification p));
            ("document", document (identification p));
            ("birthDate", birthDate (identification p));
            ("taxStatus", taxStatus (identification p));
            ("consumerStatus", consumerStatus (identification p))]);
     ("location",
      VObj [("address", VStr (address (location p)));
            ("city", city (location p));
            ("state", state (location p));
            ("zipCode", zipCode (location p))]);
     ("financialSummary",
      VObj [("totalDebtsQty", VNum (totalDebtsQty (financialSummary p)));
            ("totalDebtsValue", VNum (totalDebtsValue (financialSummary p)));
            ("protestsQty", VNum (protestsQty (financialSummary p)));
            ("protestsValue", VNum (protestsValue (financialSummary p)));
            ("legalActionsQty", VNum (legalActionsQty (financialSummary p)));
            ("bouncedChecksQty", VNum (bouncedChecksQty (financialSummary p)))]);
     ("riskScore", recordsValue (riskScore p));
     ("negativeDetails",
      VObj [("debts", recordsValue (debts (negativeDetails p)));
            ("protests", recordsValue (protests (negativeDetails p)));
            ("civilActions", recordsValue (civilActions (negativeDetails p)));
            ("bankruptcy", recordsValue (bankruptcy (negativeDetails p)))]);
     ("corporateParticipation", recordsValue (corporateParticipation p))].

(** ** Specification vocabulary *)

(** A source value that is copied: truthy and not the placeholder. *)
Definition populated (v : value) : bool :=
  truthy v && negb (strictEqStr v "-").

(** An element the mapping keeps: an array or an object, not null. *)
Definition isRecordObject (item : value) : bool :=
  typeofObject item && negb (isNull item).

(** One round of the rename loop: the pair's output name takes the
    element's value at the source key when that value is populated. *)
Definition renameStep (item : value) (newItem : record)
  (entry : string * string) : record :=
  if populated (own item (fst entry))
  then setProp newItem (snd entry) (own item (fst entry))
  else newItem.

(** The NormalizedRecord of an element under a rename map. *)
Definition normalizedRecord (keyMap : renameMap) (item : value) : record :=
  fold_left (renameStep item) keyMap [].

(** Does an element yield a record with at least one key? *)
Definition contributes (keyMap : renameMap) (item : value) : bool :=
  isRecordObject item
  && existsb (fun entry : string * string => populated (own item (fst entry))) keyMap.

(** The three shapes of a record block, and its two empty cases. *)
Inductive shape : Type :=
| AbsentBlock
| DirectSequence (items : list value)
| Wrapper (inner : value)
| BareRecord
| NoRecords.

(** The precedence of the shapes as the code resolves it: the wrapper
    applies when [dataKey] is a non-empty name and the value there is
    truthy. *)
Definition classify (block : value) (dataKey : option string) : shape :=
  if negb (truthy block) then AbsentBlock
  else
    match block with
    | VArr items => DirectSequence items
    | VObj fields =>
        if strictEqStr (lookup fields "REGISTRO") "S" then
          match dataKey with
          | Some key =>
              if negb (String.length key =? 0)%nat && truthy (lookup fields key)
              then Wrapper (lookup fields key)
              else BareRecord
          | None => BareRecord
          end
        else NoRecords
    | _ => NoRecords
    end.

(** The precedence in the words of the specification: the wrapper applies
    when the mapping contains [dataKey]. *)
Definition classify_spec (block : value) (dataKey : option string) : shape :=
  if negb (truthy block) then AbsentBlock
  else
    match block with
    | VArr items => DirectSequence items
    | VObj fields =>
        if strictEqStr (lookup fields "REGISTRO") "S" then
          match dataKey with
          | Some key =>
              if hasOwn fields key then Wrapper (lookup fields key) else BareRecord
          | None => BareRecord
          end
        else NoRecords
    | _ => NoRecords
    end.

(** The raw record list of a block of a given shape; a single value is
    promoted to a one-element list. *)
Definition rawRecords (block : value) (sh : shape) : list value :=
  match sh with
  | AbsentBlock | NoRecords => []
  | DirectSequence items => items
  | Wrapper inner => toDataArray inner
  | BareRecord => [block]
  end.

(** The records of the elements that contribute, in order. *)
Definition normalizeAll (keyMap : renameMap) (items : list value) : list record :=
  map (normalizedRecord keyMap) (filter (contributes keyMap) items).

(** Rename maps and unwrap keys the bureau convention allows: source keys
    and [dataKey] are [plainKey]s, output names are [outputName]s. *)
Definition renameMapOk (keyMap : renameMap) : bool :=
  forallb (fun entry : string * string =>
             plainKey (fst entry) && outputName (snd entry)) keyMap.

Definition dataKeyOk (dataKey : option string) : bool :=
  match dataKey with
  | Some key => plainKey key
  | None => true
  end.

(** Is the value, or an element reached through arrays, an object with an
    own property named [toString]? *)
Fixpoint shadowsToString (v : value) : bool :=
  match v with
  | VObj fields => hasOwn fields "toString"
  | VArr items => existsb shadowsToString items
  | _ => false
  end.

(** Induction on values, with the elements of an array as premises. *)
Fixpoint value_array_ind (P : value -> Prop)
  (Hundefined : P VUndefined) (Hnull : P VNull)
  (Hbool : forall b, P (VBool b)) (Hnum : forall n, P (VNum n))
  (Hstr : forall s, P (VStr s))
  (Harr : forall items, Forall P items -> P (VArr items))
  (Hobj : forall fields, P (VObj fields))
  (v : value) {struct v} : P v :=
  match v with
  | VUndefined => Hundefined
  | VNull => Hnull
  | VBool b => Hbool b
  | VNum n => Hnum n
  | VStr s => Hstr s
  | VArr items =>
      Harr items
        ((fix all (l : list value) : Forall P l :=
            match l with
            | [] => Forall_nil P
            | x :: rest =>
                Forall_cons x
                  (value_array_ind P Hundefined Hnull Hbool Hnum Hstr Harr Hobj x)
                  (all rest)
            end) items)
  | VObj fields => Hobj fields
  end.

(** Does ToString return? *)
Definition stringifies (v : value) : bool :=
  match toString v with
  | Ok _ => true
  | Throw _ => false
  end.

(** The eight values of a document that [cleanCreditData] converts to a
    string: the two debit quantities, the three address parts and the three
    counters. *)
Definition coerced (inputData : value) : list value :=
  let creditReport := creditReportOf inputData in
  let debitSummary := own creditReport "RESUMO-OCORRENCIAS-DE-DEBITOS" in
  let localizacao := own creditReport "LOCALIZACAO" in
  [getOpt debitSummary "TOTALDEVEDOR";
   getOpt debitSummary "TOTALAVALISTA";
   getOpt localizacao "TIPOLOGRADOURO";
   getOpt localizacao "NOMELOGRADOURO";
   getOpt localizacao "NUMEROLOGRADOURO";
   getOpt (own creditReport "RESUMO-TITULOS-PROTESTADOS") "TOTAL";
   getOpt (own creditReport "RESUMO-DE-ACOES-CIVEIS") "QUANTIDADE";
   getOpt (own creditReport "RESUMO-DEVOLUCOES-INFORMADAS-PELO-CCF") "TOTALOCORRENCAS"].

Definition coercionsSucceed (inputData : value) : bool :=
  forallb stringifies (coerced inputData).

(** The payload of a document with no anchor path. *)
Definition degradedPayload : AiContextPayload := {|
  identification := {|
    name := VUndefined;
    document := VUndefined;
    birthDate := VUndefined;
    taxStatus := VUndefined;
    consumerStatus := VUndefined |};
  location := {|
    address := ",";
    city := VUndefined;
    state := VUndefined;
    zipCode := VUndefined |};
  financialSummary := {|
    totalDebtsQty := Num.zero;
    totalDebtsValue := Num.zero;
    protestsQty := Num.zero;
    protestsValue := Num.zero;
    legalActionsQty := Num.zero;
    bouncedChecksQty := Num.zero |};
  riskScore := [];
  negativeDetails := {|
    debts := [];
    protests := [];
    civilActions := [];
    bankruptcy := [] |};
  corporateParticipation := [] |}.

(** A document whose anchor path leads to [acerta]. *)
Definition envelope (acerta : value) : value :=
  VObj [("body", VObj [("SPCA-XML", VObj [("RESPOSTA", VObj [("ACERTA", acerta)])])])].

(** A sequence of encoded white space code points. *)
Inductive whiteSpace : list ascii -> Prop :=
| whiteSpace_nil : whiteSpace []
| whiteSpace_one a l :
    Str.ws1 (Str.code a) = true -> whiteSpace l -> whiteSpace (a :: l)
| whiteSpace_two a b l :
    Str.ws2 (Str.code a) (Str.code b) = true -> whiteSpace l ->
    whiteSpace (a :: b :: l)
| whiteSpace_three a b c l :
    Str.ws3 (Str.code a) (Str.code b) (Str.code c) = true -> whiteSpace l ->
    whiteSpace (a :: b :: c :: l).

(** The unifier in the words of the specification. *)
Definition unify_spec (block : value) (dataKey : option string)
  (keyMap : renameMap) : list record :=
  normalizeAll keyMap (rawRecords block (classify_spec block dataKey)).

(** ** Literals, example documents and auxiliary notions *)

(** One code point recognised by [p1], [p2] or [p3]. *)
Definition segment (p1 : N -> bool) (p2 : N -> N -> bool)
  (p3 : N -> N -> N -> bool) (seg : list ascii) : Prop :=
  match seg with
  | [a] => p1 (Str.code a) = true
  | [a; b] => p2 (Str.code a) (Str.code b) = true
  | [a; b; c] => p3 (Str.code a) (Str.code b) (Str.code c) = true
  | _ => False
  end.

(** What the callback of [.map] returns for an element. *)
Definition mappedItem (keyMap : renameMap) (item : value) : option record :=
  if isRecordObject item then Some (normalizedRecord keyMap item) else None.

(** The value bound to [rawData] for each shape. *)
Definition selected (block : value) (sh : shape) : option value :=
  match sh with
  | DirectSequence _ | BareRecord => Some block
  | Wrapper inner => Some inner
  | AbsentBlock | NoRecords => None
  end.

(** The records of a block: its shape resolved, its elements mapped. *)
Definition unify (block : value) (dataKey : option string) (keyMap : renameMap)
  : list record :=
  normalizeAll keyMap (rawRecords block (classify block dataKey)).

(** The payload, given the results of the conversions that can throw. *)
Definition assemble (creditReport : value)
  (parsedPrincipal parsedGuarantor : number) (address_ : string)
  (protestsQty_ legalActionsQty_ bouncedChecksQty_ : number) : AiContextPayload :=
  let debitSummary := own creditReport "RESUMO-OCORRENCIAS-DE-DEBITOS" in
  let section (s f : string) := getOpt (own creditReport s) f in
  {| identification := {|
       name := section "IDENTIFICACAO" "NOME";
       document := section "IDENTIFICACAO" "DOCUMENTO";
       birthDate := section "IDENTIFICACAO" "DATANASCIMENTO";
       taxStatus := section "IDENTIFICACAO" "SITUACAORECEITA";
       consumerStatus := section "STATUS-CONSUMIDOR" "MENSAGEM" |};
     location := {|
       address := address_;
       city := section "LOCALIZACAO" "CIDADE";
       state := section "LOCALIZACAO" "UNIDADEFEDERATIVA";
       zipCode := section "LOCALIZACAO" "CEP" |};
     financialSummary := {|
       totalDebtsQty := Num.add (orZero parsedPrincipal) (orZero parsedGuarantor);
       totalDebtsValue :=
         Num.add (parseMonetaryValue (getOpt debitSummary "VALORACOMULADO"))
                 (parseMonetaryValue (getOpt debitSummary "VALORAVALISTA"));
       protestsQty := protestsQty_;
       protestsValue :=
         parseMonetaryValue (section "RESUMO-TITULOS-PROTESTADOS" "VALORACUMULADO");
       legalActionsQty := legalActionsQty_;
       bouncedChecksQty := bouncedChecksQty_ |};
     riskScore :=
       unify (own creditReport "SCORE-CLASSIFICACAO-VARIOS-MODELOS") None riskScoreMap;
     negativeDetails := {|
       debts := unify (own creditReport "DEBITOS") (Some "DEBITO") debtsMap;
       protests :=
         unify (own creditReport "TITULOS-PROTESTADOS") (Some "TITULO-PROTESTADO")
           protestsMap;
       civilActions :=
         unify (own creditReport "RELACAO-DE-ACOES-CIVEIS") (Some "ACAO-CIVEL")
           civilActionsMap;
       bankruptcy :=
         unify (own creditReport "RELACAO-FALENCIA-RECUPERACAO-JUDICIAL")
           (Some "FALENCIA-RECUPERACAO-JUDICIAL") bankruptcyMap |};
     corporateParticipation :=
       unify (own creditReport "PARTICIPACOES-DO-DOCUMENTO-CONSULTADO")
         (Some "PARTICIPACAO-EM-EMPRESA") participationMap |}.

(** What links an element of the raw record list to its record. *)
Definition recordOf (keyMap : renameMap) (item : value) (r : record) : Prop :=
  isRecordObject item = true
  /\ r <> []
  /\ (forall o v,
        In (o, v) r ->
        exists k, In (k, o) keyMap /\ own item k = v
                  /\ truthy v = true /\ v <> VStr "-")
  /\ (forall o,
        hasOwn r o = true <->
        exists k, In (k, o) keyMap /\ populated (own item k) = true)
  /\ (forall k o,
        In (k, o) keyMap -> own item k = VStr "-" ->
        (forall k', In (k', o) keyMap -> k' = k) ->
        hasOwn r o = false).

(** A string without a comma. *)
Fixpoint commaFree (s : string) : bool :=
  match s with
  | EmptyString => true
  | String c r => negb (Ascii.eqb c ",") && commaFree r
  end.

(** The Number value of the literal [1234567.89]. *)
Definition n1234567_89 : number := S754_finite false 5302428712241725 (-32).

(** The Number values of the literals [4], [50.5] and [150.5]. *)
Definition n4 : number := S754_finite false 4503599627370496 (-50).
Definition n50_5 : number := S754_finite false 7107243161944064 (-47).
Definition n150_5 : number := S754_finite false 5295247999369216 (-45).

(** A document whose principal-debt quantity is an object with an own
    property named [toString]. *)
Definition shadowedToString : value :=
  envelope
    (VObj [("RESUMO-OCORRENCIAS-DE-DEBITOS",
            VObj [("TOTALDEVEDOR", VObj [("toString", VNull)])])]).

Definition debitSummaryExample : value :=
  envelope
    (VObj [("RESUMO-OCORRENCIAS-DE-DEBITOS",
            VObj [("TOTALDEVEDOR", VStr "3"); ("TOTALAVALISTA", VStr "1");
                  ("VALORACOMULADO", VStr "100,00");
                  ("VALORAVALISTA", VStr "50,50")])]).

(** A document whose protest counter is the string ["abc"]. *)
Definition nonNumericCounter : value :=
  envelope (VObj [("RESUMO-TITULOS-PROTESTADOS", VObj [("TOTAL", VStr "abc")])]).

(** A document whose principal-debt quantity is the string ["abc"]. *)
Definition nonNumericDebitQuantity : value :=
  envelope
    (VObj [("RESUMO-OCORRENCIAS-DE-DEBITOS", VObj [("TOTALDEVEDOR", VStr "abc")])]).

(** A document whose principal debt value does not parse. *)
Definition unparsableDebtValue : value :=
  envelope
    (VObj [("RESUMO-OCORRENCIAS-DE-DEBITOS",
            VObj [("VALORACOMULADO", VStr "abc");
                  ("VALORAVALISTA", VStr "50,50")])]).

Definition debitosExample : value :=
  VObj [("REGISTRO", VStr "S");
        ("DEBITO",
         VArr [VObj [("DATAOCORRENCIA", VStr "2023-01-01");
                     ("VALOR", VStr "1.000,00");
                     ("INFORMANTE", VStr "Bank X");
                     ("CONTRATO", VStr "-")]])].

Definition debtsExpected : list record :=
  [[("date", VStr "2023-01-01"); ("value", VStr "1.000,00");
    ("creditor", VStr "Bank X")]].

(** A block that holds its unwrap key with a falsy value. *)
Definition falsyWrapper : value :=
  VObj [("REGISTRO", VStr "S"); ("DEBITO", VNull); ("VALOR", VStr "5")].

Definition twoDebts : value :=
  VArr [VObj [("DATAOCORRENCIA", VStr "2023-01-01"); ("VALOR", VStr "10,00")];
        VObj [("VALOR", VStr "20,00"); ("INFORMANTE", VStr "Bank Y");
              ("TAMANHOREGISTRO", VStr "0120")]].

Definition bareScore : value :=
  VObj [("REGISTRO", VStr "S"); ("NOMESCORE", VStr "Score 12 meses");
        ("SCORE", VStr "700")].

Definition noDebts : value :=
  VObj [("REGISTRO", VStr "N"); ("VALOR", VStr "10,00")].

Definition placeholderDebts : value :=
  VArr [VObj [("DATAOCORRENCIA", VStr "2023-01-01"); ("CONTRATO", VStr "-")];
        VNull;
        VStr "DEBITO";
        VObj [("VALOR", VStr "-"); ("CONTRATO", VStr "-");
              ("TAMANHOREGISTRO", VStr "0120")];
        VObj [("VALOR", VStr "7,00"); ("INFORMANTE", VStr "")]].

(** A document with a street type and a number but no street name. *)
Definition partialAddress : value :=
  envelope
    (VObj [("LOCALIZACAO",
            VObj [("TIPOLOGRADOURO", VStr "Rua");
                  ("NUMEROLOGRADOURO", VStr "10")])]).

(** ** Notions for the further properties *)

(** The record of an element under a rename map with distinct output
    names: the populated pairs, in the order of the map, each output name
    with the element's value at its source key. *)
Definition projectRecord (keyMap : renameMap) (item : value) : record :=
  map (fun entry : string * string => (snd entry, own item (fst entry)))
    (filter (fun entry : string * string => populated (own item (fst entry)))
       keyMap).

(** Two elements that are alike for a rename map: both objects or both
    not, with the same values at the source keys of the map. *)
Definition agreeOn (keyMap : renameMap) (a b : value) : Prop :=
  isRecordObject a = isRecordObject b
  /\ forall entry, In entry keyMap -> own a (fst entry) = own b (fst entry).

(** A string of decimal digits. *)
Fixpoint allDigits (s : string) : bool :=
  match s with
  | EmptyString => true
  | String c r => Str.isDigit c && allDigits r
  end.

(** A string of decimal digits and dots. *)
Fixpoint digitsOrDots (s : string) : bool :=
  match s with
  | EmptyString => true
  | String c r => (Str.isDigit c || Ascii.eqb c ".") && digitsOrDots r
  end.

(** A printable ASCII character other than the space. *)
Definition visible (c : ascii) : bool :=
  ((33 <=? Str.code c) && (Str.code c <=? 126))%N.

(** The integer a string of decimal digits denotes, as a Number value. *)
Definition integerOf (digits : string) : number :=
  Num.roundRatio false (Str.decimalValue digits) 1.

Definition debitSummaryOf (inputData : value) : value :=
  own (creditReportOf inputData) "RESUMO-OCORRENCIAS-DE-DEBITOS".

Definition localizacaoOf (inputData : value) : value :=
  own (creditReportOf inputData) "LOCALIZACAO".

(** Example documents and blocks of the further properties. *)
Definition shadowedAddress : value :=
  envelope
    (VObj [("LOCALIZACAO",
            VObj [("NOMELOGRADOURO", VArr [VStr "Av."; VObj [("toString", VStr "x")]])])]).

Definition scalarReport : value := envelope (VStr "SEM REGISTRO").

Definition wrappedPair : value :=
  VObj [("REGISTRO", VStr "S");
        ("DEBITO",
         VArr [VObj [("VALOR", VStr "10,00")]; VObj [("VALOR", VStr "20,00")]])].

Definition noisyDebts : list value :=
  [VObj [("TAMANHOREGISTRO", VStr "0120"); ("VALOR", VStr "10,00");
         ("TIPOREGISTRO", VStr "D")];
   VStr "x"].

Definition plainDebts : list value :=
  [VObj [("VALOR", VStr "10,00")]; VNum Num.zero].

Definition fullAddress : value :=
  envelope
    (VObj [("LOCALIZACAO",
            VObj [("TIPOLOGRADOURO", VStr "Rua");
                  ("NOMELOGRADOURO", VStr "das Flores");
                  ("NUMEROLOGRADOURO", VStr "10")])]).

Definition paddedAddress : value :=
  envelope
    (VObj [("LOCALIZACAO",
            VObj [("TIPOLOGRADOURO", VStr "  Rua");
                  ("NUMEROLOGRADOURO", VStr "10 ")])]).

Definition countedReport : value :=
  envelope
    (VObj [("RESUMO-OCORRENCIAS-DE-DEBITOS",
            VObj [("TOTALDEVEDOR", VStr "12"); ("TOTALAVALISTA", VStr "030")]);
           ("RESUMO-TITULOS-PROTESTADOS", VObj [("TOTAL", VStr "7")]);
           ("RESUMO-DE-ACOES-CIVEIS", VObj [("QUANTIDADE", VStr "0")]);
           ("RESUMO-DEVOLUCOES-INFORMADAS-PELO-CCF",
            VObj [("TOTALOCORRENCAS", VStr "105")])]).

Definition emptySummaries : value :=
  envelope
    (VObj [("RESUMO-OCORRENCIAS-DE-DEBITOS",
            VObj [("TOTALDEVEDOR", VStr ""); ("TOTALAVALISTA", VNull);
                  ("VALORACOMULADO", VNull)]);
           ("RESUMO-TITULOS-PROTESTADOS",
            VObj [("TOTAL", VStr ""); ("VALORACUMULADO", VNum Num.zero)])]).

(** No code point recognised by [p1], [p2] or [p3] at the head. *)
Definition headClear (p1 : N -> bool) (p2 : N -> N -> bool)
  (p3 : N -> N -> N -> bool) (l : list ascii) : Prop :=
  match l with
  | [] => True
  | a :: t =>
      p1 (Str.code a) = false
      /\ match t with
         | [] => True
         | b :: t2 =>
             p2 (Str.code a) (Str.code b) = false
             /\ match t2 with
                | [] => True
                | c :: _ => p3 (Str.code a) (Str.code b) (Str.code c) = false
                end
         end
  end.

(** The sections of the report that cleanCreditData reads. *)
Definition sectionsRead : list string :=
  ["RESUMO-OCORRENCIAS-DE-DEBITOS"; "IDENTIFICACAO"; "STATUS-CONSUMIDOR";
   "LOCALIZACAO"; "RESUMO-TITULOS-PROTESTADOS"; "RESUMO-DE-ACOES-CIVEIS";
   "RESUMO-DEVOLUCOES-INFORMADAS-PELO-CCF"; "SCORE-CLASSIFICACAO-VARIOS-MODELOS";
   "DEBITOS"; "TITULOS-PROTESTADOS"; "RELACAO-DE-ACOES-CIVEIS";
   "RELACAO-FALENCIA-RECUPERACAO-JUDICIAL";
   "PARTICIPACOES-DO-DOCUMENTO-CONSULTADO"].

Definition reportWithMetadata : value :=
  envelope
    (VObj [("TAMANHOREGISTRO", VStr "0512"); ("DEBITOS", debitosExample);
           ("CONSULTAS-ANTERIORES", VArr [VObj [("TOTAL", VStr "9")]])]).

(** The payload of an input fed back as an input. *)
Definition renormalized (inputData : value) : result AiContextPayload :=
  p <- cleanCreditData inputData ;;
  cleanCreditData (payloadValue p).

(** A value that holds no array inside an array. *)
Definition shallow (v : value) : bool :=
  match v with
  | VArr items => forallb (fun x => negb (isArray x)) items
  | _ => true
  end.

Definition metadataOnly : value :=
  envelope (VObj [("TAMANHOREGISTRO", VStr "0512")]).

(** ** Tactics *)

(** Split a goal between two runs of the same conversion. *)
Ltac same_bind :=
  match goal with
  | |- bind ?c _ = bind ?c _ => destruct c; cbn [bind]; [|reflexivity]
  end.

(** Name the value of the first conversion of a run that returned. *)
Ltac bind_ok H x Hx :=
  match type of H with
  | bind ?c _ = Ok _ =>
      destruct c as [x|] eqn:Hx; cbn [bind] in H; [|discriminate H]
  end.

(** * Properties *)

(** ** Property reads and the rename loop *)

Section RenameLoop.

Variable item : value.
Hypothesis item_object : isRecordObject item = true.

Lemma get_record_object (k : string) : get item k = Ok (own item k).
Proof.
  destruct item; try discriminate; reflexivity.
Qed.

Lemma renameFields_fold (keyMap : renameMap) :
  forall newItem,
    renameFields item keyMap newItem = Ok (fold_left (renameStep item) keyMap newItem).
Proof.
  induction keyMap as [|[oldKey newKey] rest IH]; intros newItem.
  - reflexivity.
  - cbn [renameFields fold_left].
    rewrite get_record_object. cbn [bind].
    unfold renameStep at 2. unfold populated. cbn [fst snd].
    destruct (truthy (own item oldKey)); cbn [andb]; [|apply IH].
    destruct (strictEqStr (own item oldKey) "-"); cbn [negb]; apply IH.
Qed.

Lemma mapItem_record_object (keyMap : renameMap) :
  mapItem keyMap item = Ok (Some (normalizedRecord keyMap item)).
Proof.
  unfold mapItem.
  pose proof item_object as H. unfold isRecordObject in H.
  apply andb_true_iff in H as [Hobj Hnull].
  rewrite Hobj. apply negb_true_iff in Hnull. rewrite Hnull. cbn [negb orb].
  rewrite renameFields_fold. reflexivity.
Qed.

End RenameLoop.

Lemma mapItem_other (keyMap : renameMap) (item : value) :
  isRecordObject item = false -> mapItem keyMap item = Ok None.
Proof.
  unfold mapItem, isRecordObject. intros H.
  destruct (typeofObject item); cbn [negb orb andb] in *; [|reflexivity].
  apply negb_false_iff in H. rewrite H. reflexivity.
Qed.

(** *** What [setProp] and the loop do to the keys *)

Lemma setProp_not_nil (r : record) (k : string) (v : value) : setProp r k v <> [].
Proof.
  destruct r as [|[k' v'] rest]; cbn [setProp]; [discriminate|].
  destruct (String.eqb k' k); discriminate.
Qed.

Lemma setProp_In (r : record) (k : string) (v : value) (o : string) (w : value) :
  In (o, w) (setProp r k v) -> (o = k /\ w = v) \/ In (o, w) r.
Proof.
  induction r as [|[k' v'] rest IH]; cbn [setProp].
  - intros [H|[]]. inversion H. auto.
  - destruct (String.eqb k' k) eqn:E.
    + apply String.eqb_eq in E. subst k'.
      intros [H|H]; [inversion H; auto|right; right; exact H].
    + intros [H|H]; [right; left; exact H|].
      destruct (IH H) as [?|?]; [auto|right; right; assumption].
Qed.

Lemma hasOwn_In (r : record) (o : string) :
  hasOwn r o = true -> exists v, In (o, v) r.
Proof.
  induction r as [|[k v] rest IH]; cbn [hasOwn]; [discriminate|].
  intros H. apply orb_true_iff in H as [H|H].
  - apply String.eqb_eq in H. subst. exists v. left. reflexivity.
  - destruct (IH H) as [w Hw]. exists w. right. exact Hw.
Qed.

Lemma hasOwn_setProp (r : record) (k : string) (v : value) (o : string) :
  hasOwn (setProp r k v) o = hasOwn r o || String.eqb k o.
Proof.
  induction r as [|[k' v'] rest IH]; cbn [setProp hasOwn].
  - rewrite orb_false_r. reflexivity.
  - destruct (String.eqb k' k) eqn:E; cbn [hasOwn].
    + apply String.eqb_eq in E. subst k'.
      destruct (String.eqb k o); [rewrite orb_true_r|rewrite orb_false_r]; reflexivity.
    + rewrite IH, orb_assoc. reflexivity.
Qed.

Section Normalized.

Variable item : value.

Lemma fold_rename_hasOwn (keyMap : renameMap) (o : string) :
  forall newItem,
    hasOwn (fold_left (renameStep item) keyMap newItem) o
    = hasOwn newItem o
      || existsb (fun entry : string * string =>
                    String.eqb (snd entry) o && populated (own item (fst entry)))
           keyMap.
Proof.
  induction keyMap as [|entry rest IH]; intros newItem; cbn [fold_left existsb].
  - rewrite orb_false_r. reflexivity.
  - rewrite IH. unfold renameStep at 1.
    destruct (populated (own item (fst entry))).
    + rewrite hasOwn_setProp, andb_true_r, orb_assoc. reflexivity.
    + rewrite andb_false_r. reflexivity.
Qed.

Lemma fold_rename_In (keyMap : renameMap) :
  forall newItem o v,
    In (o, v) (fold_left (renameStep item) keyMap newItem) ->
    In (o, v) newItem
    \/ exists k, In (k, o) keyMap /\ own item k = v /\ populated v = true.
Proof.
  induction keyMap as [|[oldKey newKey] rest IH]; intros newItem o v; cbn [fold_left].
  - auto.
  - intros H. apply IH in H. destruct H as [H|(k & Hk & Hv & Hp)].
    + unfold renameStep in H. cbn [fst snd] in H.
      destruct (populated (own item oldKey)) eqn:Hpop; [|auto].
      apply setProp_In in H. destruct H as [[-> ->]|H]; [|auto].
      right. exists oldKey. split; [left; reflexivity|split; [reflexivity|exact Hpop]].
    + right. exists k. split; [right; exact Hk|split; assumption].
Qed.

Lemma fold_rename_not_nil (keyMap : renameMap) :
  forall newItem,
    newItem <> [] -> fold_left (renameStep item) keyMap newItem <> [].
Proof.
  induction keyMap as [|entry rest IH]; intros newItem Hne; cbn [fold_left].
  - exact Hne.
  - apply IH. unfold renameStep.
    destruct (populated (own item (fst entry))); [apply setProp_not_nil|exact Hne].
Qed.

Lemma fold_rename_nil (keyMap : renameMap) :
  existsb (fun entry : string * string => populated (own item (fst entry))) keyMap = false ->
  forall newItem, fold_left (renameStep item) keyMap newItem = newItem.
Proof.
  induction keyMap as [|entry rest IH]; cbn [existsb fold_left]; intros H newItem.
  - reflexivity.
  - apply orb_false_iff in H as [H1 H2].
    unfold renameStep at 2. rewrite H1. apply IH, H2.
Qed.

Lemma fold_rename_populated (keyMap : renameMap) :
  existsb (fun entry : string * string => populated (own item (fst entry))) keyMap = true ->
  forall newItem, fold_left (renameStep item) keyMap newItem <> [].
Proof.
  induction keyMap as [|entry rest IH]; cbn [existsb fold_left]; intros H newItem.
  - discriminate.
  - destruct (populated (own item (fst entry))) eqn:Hpop.
    + apply fold_rename_not_nil. unfold renameStep. rewrite Hpop. apply setProp_not_nil.
    + cbn [orb] in H. unfold renameStep at 2. rewrite Hpop. apply IH, H.
Qed.

Lemma normalizedRecord_fold (keyMap : renameMap) :
  normalizedRecord keyMap item = fold_left (renameStep item) keyMap [].
Proof. reflexivity. Qed.

End Normalized.

(** ** processDetailBlock as a function of the shape *)

Lemma mapM_mapItem (keyMap : renameMap) (items : list value) :
  mapM (mapItem keyMap) items = Ok (map (mappedItem keyMap) items).
Proof.
  induction items as [|item rest IH]; cbn [mapM map]; [reflexivity|].
  unfold mappedItem at 1.
  destruct (isRecordObject item) eqn:Hobj.
  - rewrite (mapItem_record_object item Hobj). cbn [bind]. rewrite IH. reflexivity.
  - rewrite (mapItem_other keyMap item Hobj). cbn [bind]. rewrite IH. reflexivity.
Qed.

Lemma keepItem_normalized (keyMap : renameMap) (item : value) :
  keepItem (Some (normalizedRecord keyMap item))
  = existsb (fun entry : string * string => populated (own item (fst entry))) keyMap.
Proof.
  rewrite normalizedRecord_fold. cbn [keepItem].
  destruct (existsb _ keyMap) eqn:E.
  - pose proof (fold_rename_populated item keyMap E []) as Hne.
    destruct (fold_left (renameStep item) keyMap []); [contradiction|reflexivity].
  - rewrite (fold_rename_nil item keyMap E). reflexivity.
Qed.

Lemma kept_mapped (keyMap : renameMap) (items : list value) :
  kept (map (mappedItem keyMap) items) = normalizeAll keyMap items.
Proof.
  unfold normalizeAll.
  induction items as [|item rest IH]; cbn [map kept filter]; [reflexivity|].
  unfold mappedItem at 1 2, contributes.
  destruct (isRecordObject item); cbn [andb]; [|exact IH].
  rewrite keepItem_normalized.
  destruct (existsb _ keyMap); cbn [map]; [f_equal|]; exact IH.
Qed.

Lemma selectRawData_classify (block : value) (dataKey : option string) :
  truthy block = true ->
  selectRawData block dataKey = Ok (selected block (classify block dataKey)).
Proof.
  intros Ht. unfold selectRawData, classify. rewrite Ht. cbn [negb].
  destruct block as [| |b|n|str|items|fields]; try discriminate;
    try (destruct dataKey as [key|]; [destruct (String.length key =? 0)%nat|];
         reflexivity).
  cbn [isArray typeofObject get own bind].
  destruct (strictEqStr (lookup fields "REGISTRO") "S");
    destruct dataKey as [key|]; try reflexivity;
    destruct (String.length key =? 0)%nat; cbn [negb andb]; try reflexivity.
  destruct (truthy (lookup fields key)); reflexivity.
Qed.

Lemma toDataArray_selected (block : value) (dataKey : option string) (raw : value) :
  selected block (classify block dataKey) = Some raw ->
  toDataArray raw = rawRecords block (classify block dataKey).
Proof.
  unfold classify.
  destruct (truthy block); cbn [negb]; [|discriminate].
  destruct block as [| |b|n|str|items|fields]; try discriminate.
  - cbn. intros H. inversion H. reflexivity.
  - destruct (strictEqStr (lookup fields "REGISTRO") "S"); [|discriminate].
    destruct dataKey as [key|].
    + destruct (negb (String.length key =? 0)%nat && truthy (lookup fields key));
        cbn; intros H; inversion H; reflexivity.
    + cbn. intros H. inversion H. reflexivity.
Qed.

Lemma rawRecords_unselected (block : value) (dataKey : option string) :
  selected block (classify block dataKey) = None ->
  rawRecords block (classify block dataKey) = [].
Proof.
  destruct (classify block dataKey); cbn; try discriminate; reflexivity.
Qed.

(** Every call returns, and returns the records of the contributing
    elements of the resolved record list. *)
Lemma processDetailBlock_unify (block : value) (dataKey : option string)
  (keyMap : renameMap) :
  processDetailBlock block dataKey keyMap
  = Ok (normalizeAll keyMap (rawRecords block (classify block dataKey))).
Proof.
  unfold processDetailBlock.
  destruct (truthy block) eqn:Ht; cbn [negb].
  - rewrite (selectRawData_classify block dataKey Ht). cbn [bind].
    destruct (selected block (classify block dataKey)) as [raw|] eqn:Hsel.
    + rewrite mapM_mapItem. cbn [bind]. rewrite kept_mapped.
      rewrite (toDataArray_selected block dataKey raw Hsel). reflexivity.
    + rewrite (rawRecords_unselected block dataKey Hsel). reflexivity.
  - unfold classify. rewrite Ht. reflexivity.
Qed.

(** ** Shape resolution (C2) *)

Lemma strictEqStr_eq (v : value) (s : string) :
  strictEqStr v s = true <-> v = VStr s.
Proof.
  destruct v; cbn [strictEqStr]; try (split; discriminate).
  rewrite String.eqb_eq. split; [intros ->; reflexivity|intros E; inversion E; reflexivity].
Qed.

Lemma strictEqStr_neq (v : value) (s : string) :
  v <> VStr s -> strictEqStr v s = false.
Proof.
  intros H. destruct (strictEqStr v s) eqn:E; [|reflexivity].
  apply strictEqStr_eq in E. contradiction.
Qed.

Lemma nonempty_length (key : string) :
  key <> "" -> negb (String.length key =? 0)%nat = true.
Proof.
  destruct key; [contradiction|reflexivity].
Qed.

(** C2, the claim as stated fails.  The block
    [{REGISTRO: "S", DEBITO: null, VALOR: "5"}] is a keyed object with
    REGISTRO equal to ["S"] that contains the dataKey [DEBITO]; unwrapping
    the value at the key, as the claim has it, leaves no record, but the
    test of line 50 asks for a truthy value there, so the code takes the
    block itself as a single record and returns [{value: "5"}]. *)
Lemma C2_contained_key_is_not_enough :
  classify_spec falsyWrapper (Some "DEBITO") = Wrapper VNull
  /\ unify_spec falsyWrapper (Some "DEBITO") debtsMap = []
  /\ processDetailBlock falsyWrapper (Some "DEBITO") debtsMap
     = Ok [[("value", VStr "5")]]
  /\ processDetailBlock falsyWrapper (Some "DEBITO") debtsMap
     <> Ok (unify_spec falsyWrapper (Some "DEBITO") debtsMap).
Proof.
  repeat split; try (vm_compute; reflexivity).
  vm_compute. discriminate.
Qed.

(** C2, amended.  For every block, unwrap key and rename map of the bureau
    convention, processDetailBlock returns the records of the raw record
    list that the following precedence selects: a falsy block has no
    records; an array is the record list as it stands; a keyed object with
    REGISTRO equal to ["S"] that holds a truthy value at a non-empty
    dataKey has that value as record list (a single value promoted to a
    one-element list); a keyed object with REGISTRO equal to ["S"]
    otherwise (no dataKey, an empty one, or an absent or falsy value at
    it) is itself the single record; anything else has no records.  So a
    two-record array gives the two mapped records, a bare object with
    REGISTRO ["S"] its one mapped record, and REGISTRO ["N"] the empty
    sequence. *)
Theorem C2_shape_resolution (block : value) (dataKey : option string)
  (keyMap : renameMap) :
  dataKeyOk dataKey = true ->
  renameMapOk keyMap = true ->
  let result := processDetailBlock block dataKey keyMap in
  result = Ok (normalizeAll keyMap (rawRecords block (classify block dataKey)))
  /\ (truthy block = false -> result = Ok [])
  /\ (forall items, block = VArr items -> result = Ok (normalizeAll keyMap items))
  /\ (forall fields key,
        block = VObj fields ->
        lookup fields "REGISTRO" = VStr "S" ->
        dataKey = Some key -> key <> "" -> truthy (lookup fields key) = true ->
        result = Ok (normalizeAll keyMap (toDataArray (lookup fields key))))
  /\ (forall fields,
        block = VObj fields ->
        lookup fields "REGISTRO" = VStr "S" ->
        (forall key, dataKey = Some key ->
                     key = "" \/ truthy (lookup fields key) = false) ->
        result = Ok (normalizeAll keyMap [block]))
  /\ (isArray block = false -> own block "REGISTRO" <> VStr "S" ->
      result = Ok [])
  /\ (forall r1 r2,
        block = VArr [r1; r2] ->
        contributes keyMap r1 = true -> contributes keyMap r2 = true ->
        result = Ok [normalizedRecord keyMap r1; normalizedRecord keyMap r2])
  /\ (forall fields,
        block = VObj fields ->
        lookup fields "REGISTRO" = VStr "S" -> dataKey = None ->
        contributes keyMap block = true ->
        result = Ok [normalizedRecord keyMap block])
  /\ (forall fields,
        block = VObj fields -> lookup fields "REGISTRO" = VStr "N" ->
        result = Ok []).
Proof.
  intros _ _. cbv zeta. rewrite processDetailBlock_unify.
  split; [reflexivity|].
  split; [intros Hf; unfold classify; rewrite Hf; reflexivity|].
  split; [intros items ->; reflexivity|].
  split.
  { intros fields key -> Hreg -> Hkey Hval. unfold classify.
    cbn [truthy negb]. rewrite Hreg. cbn [strictEqStr String.eqb Ascii.eqb Bool.eqb].
    rewrite (nonempty_length key Hkey), Hval. reflexivity. }
  split.
  { intros fields -> Hreg Hkeys. unfold classify.
    cbn [truthy negb]. rewrite Hreg. cbn [strictEqStr String.eqb Ascii.eqb Bool.eqb].
    destruct dataKey as [key|]; [|reflexivity].
    destruct (Hkeys key eq_refl) as [->|Hval]; [reflexivity|].
    rewrite Hval, andb_false_r. reflexivity. }
  split.
  { intros Harr Hreg. unfold classify.
    destruct (truthy block); cbn [negb]; [|reflexivity].
    destruct block; try discriminate; try reflexivity.
    cbn [own] in Hreg. rewrite (strictEqStr_neq _ _ Hreg). reflexivity. }
  split.
  { intros r1 r2 -> H1 H2. cbn [classify truthy negb rawRecords].
    unfold normalizeAll. cbn [filter]. rewrite H1, H2. reflexivity. }
  split.
  { intros fields -> Hreg -> Hc. unfold classify.
    cbn [truthy negb]. rewrite Hreg. cbn [strictEqStr String.eqb Ascii.eqb Bool.eqb].
    cbn [rawRecords]. unfold normalizeAll. cbn [filter]. rewrite Hc. reflexivity. }
  intros fields -> Hreg. unfold classify.
  cbn [truthy negb]. rewrite Hreg. reflexivity.
Qed.

Lemma C2_shape_resolution_witness :
  processDetailBlock twoDebts (Some "DEBITO") debtsMap
  = Ok [[("date", VStr "2023-01-01"); ("value", VStr "10,00")];
        [("value", VStr "20,00"); ("creditor", VStr "Bank Y")]]
  /\ processDetailBlock debitosExample (Some "DEBITO") debtsMap = Ok debtsExpected
  /\ processDetailBlock bareScore None riskScoreMap
     = Ok [[("scoreName", VStr "Score 12 meses"); ("points", VStr "700")]]
  /\ processDetailBlock noDebts (Some "DEBITO") debtsMap = Ok [].
Proof.
  split; [|split; [|split]].
  - destruct (C2_shape_resolution twoDebts (Some "DEBITO") debtsMap eq_refl eq_refl)
      as (_ & _ & _ & _ & _ & _ & Htwo & _).
    exact (Htwo _ _ eq_refl eq_refl eq_refl).
  - destruct (C2_shape_resolution debitosExample (Some "DEBITO") debtsMap
                eq_refl eq_refl) as (_ & _ & _ & Hwrap & _).
    refine (Hwrap _ "DEBITO" eq_refl eq_refl eq_refl _ eq_refl). discriminate.
  - destruct (C2_shape_resolution bareScore None riskScoreMap eq_refl eq_refl)
      as (_ & _ & _ & _ & _ & _ & _ & Hbare & _).
    exact (Hbare _ eq_refl eq_refl eq_refl eq_refl).
  - destruct (C2_shape_resolution noDebts (Some "DEBITO") debtsMap eq_refl eq_refl)
      as (_ & _ & _ & _ & _ & _ & _ & _ & Hnone).
    exact (Hnone _ eq_refl eq_refl).
Defined.

(** ** Placeholder filtering (C3) *)

Lemma populated_inv (v : value) :
  populated v = true -> truthy v = true /\ v <> VStr "-".
Proof.
  unfold populated. intros H. apply andb_true_iff in H as [Ht Hn].
  split; [exact Ht|]. intros ->. discriminate Hn.
Qed.

Lemma Forall2_map_right {A B : Type} (P : A -> B -> Prop) (f : A -> B)
  (l : list A) :
  (forall x, In x l -> P x (f x)) -> Forall2 P l (map f l).
Proof.
  induction l as [|x rest IH]; cbn [map]; intros H; constructor.
  - apply H. left. reflexivity.
  - apply IH. intros y Hy. apply H. right. exact Hy.
Qed.

Lemma normalizedRecord_recordOf (keyMap : renameMap) (item : value) :
  contributes keyMap item = true ->
  recordOf keyMap item (normalizedRecord keyMap item).
Proof.
  unfold contributes. intros H. apply andb_true_iff in H as [Hobj Hex].
  assert (Hkeys : forall o v,
             In (o, v) (normalizedRecord keyMap item) ->
             exists k, In (k, o) keyMap /\ own item k = v
                       /\ truthy v = true /\ v <> VStr "-").
  { intros o v Hin. rewrite normalizedRecord_fold in Hin.
    apply fold_rename_In in Hin. destruct Hin as [[]|(k & Hk & Hv & Hp)].
    exists k. split; [exact Hk|split; [exact Hv|apply populated_inv, Hp]]. }
  split; [exact Hobj|].
  split; [rewrite normalizedRecord_fold; apply fold_rename_populated, Hex|].
  split; [exact Hkeys|].
  split.
  { intros o. rewrite normalizedRecord_fold, fold_rename_hasOwn. cbn [hasOwn orb].
    rewrite existsb_exists. split.
    - intros ([k o'] & Hin & Hb). cbn [fst snd] in Hb.
      apply andb_true_iff in Hb as [Ho Hp]. apply String.eqb_eq in Ho. subst o'.
      exists k. split; assumption.
    - intros (k & Hin & Hp). exists (k, o). split; [exact Hin|].
      cbn [fst snd]. rewrite String.eqb_refl, Hp. reflexivity. }
  intros k o Hk Hdash Honly.
  destruct (hasOwn (normalizedRecord keyMap item) o) eqn:E; [|reflexivity].
  apply hasOwn_In in E as [v Hin].
  destruct (Hkeys o v Hin) as (k' & Hk' & Hv & _ & Hne).
  rewrite (Honly k' Hk'), Hdash in Hv. subst v. contradiction.
Qed.

(** C3.  For every record block, unwrap key and rename map of the bureau
    convention, processDetailBlock returns, and the records it returns
    are, in order, those of the elements of the raw record list that are
    objects with at least one mapped field truthy and not ["-"]: elements
    that are not objects (null included) and elements whose mapped fields
    are all absent, falsy or ["-"] give nothing.  Each record is non-empty;
    each of its entries is the output name of a source key whose value in
    the element is truthy and not ["-"], with that value; an output name is
    present exactly when one of its source keys has such a value; and an
    output name whose only source key holds ["-"] is absent. *)
Theorem C3_placeholder_filtering (block : value) (dataKey : option string)
  (keyMap : renameMap) :
  dataKeyOk dataKey = true ->
  renameMapOk keyMap = true ->
  exists out,
    processDetailBlock block dataKey keyMap = Ok out
    /\ Forall2 (recordOf keyMap)
         (filter (contributes keyMap) (rawRecords block (classify block dataKey)))
         out
    /\ ~ In [] out.
Proof.
  intros _ _. rewrite processDetailBlock_unify. eexists. split; [reflexivity|].
  unfold normalizeAll. split.
  - apply Forall2_map_right. intros item Hin.
    apply filter_In in Hin as [_ Hc]. apply normalizedRecord_recordOf, Hc.
  - intros Hin. apply in_map_iff in Hin as (item & Hnil & Hin).
    apply filter_In in Hin as [_ Hc].
    destruct (normalizedRecord_recordOf keyMap item Hc) as (_ & Hne & _).
    contradiction.
Qed.

Lemma C3_placeholder_filtering_witness :
  exists out,
    processDetailBlock placeholderDebts (Some "DEBITO") debtsMap = Ok out
    /\ out = [[("date", VStr "2023-01-01")]; [("value", VStr "7,00")]]
    /\ ~ In [] out.
Proof.
  destruct (C3_placeholder_filtering placeholderDebts (Some "DEBITO") debtsMap
              eq_refl eq_refl) as (out & Hout & _ & Hne).
  exists out. split; [exact Hout|]. split; [|exact Hne].
  vm_compute in Hout. inversion Hout. reflexivity.
Defined.

(** ** cleanCreditData as six conversions and an assembly *)

Lemma get_truthy (v : value) (k : string) :
  truthy v = true -> get v k = Ok (own v k).
Proof.
  destruct v; try discriminate; reflexivity.
Qed.

Lemma creditReportOf_truthy (inputData : value) :
  truthy (creditReportOf inputData) = true.
Proof.
  unfold creditReportOf, or_else.
  destruct (truthy (getOpt _ "ACERTA")) eqn:E; [exact E|reflexivity].
Qed.

Lemma field_truthy (creditReport : value) (s f : string) :
  truthy creditReport = true ->
  field creditReport s f = Ok (getOpt (own creditReport s) f).
Proof.
  intros H. unfold field. rewrite (get_truthy _ _ H). reflexivity.
Qed.

Lemma detailOf_truthy (creditReport : value) (s : string)
  (dataKey : option string) (keyMap : renameMap) :
  truthy creditReport = true ->
  detailOf creditReport s dataKey keyMap
  = Ok (unify (own creditReport s) dataKey keyMap).
Proof.
  intros H. unfold detailOf. rewrite (get_truthy _ _ H). cbn [bind].
  apply processDetailBlock_unify.
Qed.

Lemma cleanCreditData_steps (inputData : value) :
  cleanCreditData inputData
  = (let creditReport := creditReportOf inputData in
     let debitSummary := own creditReport "RESUMO-OCORRENCIAS-DE-DEBITOS" in
     parsedPrincipal <- parseInt (getOpt debitSummary "TOTALDEVEDOR") ;;
     parsedGuarantor <- parseInt (getOpt debitSummary "TOTALAVALISTA") ;;
     address_ <- addressOf creditReport ;;
     protestsQty_ <- countOf creditReport "RESUMO-TITULOS-PROTESTADOS" "TOTAL" ;;
     legalActionsQty_ <- countOf creditReport "RESUMO-DE-ACOES-CIVEIS" "QUANTIDADE" ;;
     bouncedChecksQty_ <-
       countOf creditReport "RESUMO-DEVOLUCOES-INFORMADAS-PELO-CCF" "TOTALOCORRENCAS" ;;
     Ok (assemble creditReport parsedPrincipal parsedGuarantor address_
           protestsQty_ legalActionsQty_ bouncedChecksQty_)).
Proof.
  pose proof (creditReportOf_truthy inputData) as Ht.
  unfold cleanCreditData. cbv zeta.
  rewrite (get_truthy _ _ Ht). cbn [bind].
  do 2 same_bind.
  repeat (rewrite (field_truthy _ _ _ Ht); cbn [bind]).
  same_bind.
  repeat (rewrite (field_truthy _ _ _ Ht); cbn [bind]).
  same_bind.
  repeat (rewrite (field_truthy _ _ _ Ht); cbn [bind]).
  do 2 same_bind.
  repeat (rewrite (detailOf_truthy _ _ _ _ Ht); cbn [bind]).
  reflexivity.
Qed.

(** ** When cleanCreditData returns *)

Lemma falsy_stringifies (v : value) : truthy v = false -> stringifies v = true.
Proof.
  destruct v; try discriminate; reflexivity.
Qed.

Lemma stringifies_or_else (v : value) (s : string) :
  stringifies (or_else v (VStr s)) = stringifies v.
Proof.
  unfold or_else. destruct (truthy v) eqn:E; [reflexivity|].
  rewrite (falsy_stringifies v E). reflexivity.
Qed.

Lemma stringifies_toString (v : value) :
  stringifies v = true -> exists s, toString v = Ok s.
Proof.
  unfold stringifies. destruct (toString v) as [s|e]; [|discriminate].
  intros _. exists s. reflexivity.
Qed.

Lemma toString_stringifies (v : value) (s : string) :
  toString v = Ok s -> stringifies v = true.
Proof.
  unfold stringifies. intros ->. reflexivity.
Qed.

Lemma parseInt_returns (v : value) :
  stringifies v = true -> exists n, parseInt v = Ok n.
Proof.
  intros H. destruct (stringifies_toString v H) as [s Hs].
  exists (parseIntString s). unfold parseInt. rewrite Hs. reflexivity.
Qed.

Lemma parseInt_stringifies (v : value) (n : number) :
  parseInt v = Ok n -> stringifies v = true.
Proof.
  unfold parseInt, stringifies. destruct (toString v); [reflexivity|discriminate].
Qed.

Lemma countOf_truthy (creditReport : value) (s f : string) :
  truthy creditReport = true ->
  countOf creditReport s f
  = parseInt (or_else (getOpt (own creditReport s) f) (VStr "0")).
Proof.
  intros H. unfold countOf. rewrite (field_truthy _ _ _ H). reflexivity.
Qed.

Lemma addressOf_truthy (creditReport : value) :
  truthy creditReport = true ->
  addressOf creditReport
  = (let localizacao := own creditReport "LOCALIZACAO" in
     part1 <- toString (or_else (getOpt localizacao "TIPOLOGRADOURO") (VStr "")) ;;
     part2 <- toString (or_else (getOpt localizacao "NOMELOGRADOURO") (VStr "")) ;;
     part3 <- toString (or_else (getOpt localizacao "NUMEROLOGRADOURO") (VStr "")) ;;
     Ok (Str.trim (part1 ++ " " ++ part2 ++ ", " ++ part3))).
Proof.
  intros H. unfold addressOf. cbv zeta.
  rewrite (field_truthy _ _ _ H). cbn [bind]. same_bind.
  rewrite (field_truthy _ _ _ H). cbn [bind]. same_bind.
  rewrite (field_truthy _ _ _ H). cbn [bind]. reflexivity.
Qed.

(** A returned payload is the assembly of the six conversions. *)
Lemma cleanCreditData_inv (inputData : value) (p : AiContextPayload) :
  cleanCreditData inputData = Ok p ->
  let creditReport := creditReportOf inputData in
  let debitSummary := own creditReport "RESUMO-OCORRENCIAS-DE-DEBITOS" in
  exists parsedPrincipal parsedGuarantor address_ protestsQty_ legalActionsQty_
         bouncedChecksQty_,
    parseInt (getOpt debitSummary "TOTALDEVEDOR") = Ok parsedPrincipal
    /\ parseInt (getOpt debitSummary "TOTALAVALISTA") = Ok parsedGuarantor
    /\ addressOf creditReport = Ok address_
    /\ countOf creditReport "RESUMO-TITULOS-PROTESTADOS" "TOTAL" = Ok protestsQty_
    /\ countOf creditReport "RESUMO-DE-ACOES-CIVEIS" "QUANTIDADE" = Ok legalActionsQty_
    /\ countOf creditReport "RESUMO-DEVOLUCOES-INFORMADAS-PELO-CCF" "TOTALOCORRENCAS"
       = Ok bouncedChecksQty_
    /\ p = assemble creditReport parsedPrincipal parsedGuarantor address_
             protestsQty_ legalActionsQty_ bouncedChecksQty_.
Proof.
  rewrite cleanCreditData_steps. cbv zeta. intros H.
  bind_ok H pp Hpp. bind_ok H pg Hpg. bind_ok H a Ha.
  bind_ok H q1 Hq1. bind_ok H q2 Hq2. bind_ok H q3 Hq3.
  exists pp, pg, a, q1, q2, q3. inversion H. repeat split; reflexivity.
Qed.

(** The conversions are the only steps that can throw. *)
Lemma cleanCreditData_returns (inputData : value) :
  coercionsSucceed inputData = true ->
  exists p, cleanCreditData inputData = Ok p.
Proof.
  pose proof (creditReportOf_truthy inputData) as Ht.
  unfold coercionsSucceed, coerced. cbv zeta. cbn [forallb]. intros H.
  apply andb_true_iff in H as [H0 H]. apply andb_true_iff in H as [H1 H].
  apply andb_true_iff in H as [H2 H]. apply andb_true_iff in H as [H3 H].
  apply andb_true_iff in H as [H4 H]. apply andb_true_iff in H as [H5 H].
  apply andb_true_iff in H as [H6 H]. apply andb_true_iff in H as [H7 _].
  rewrite cleanCreditData_steps. cbv zeta.
  destruct (parseInt_returns _ H0) as [pp ->]. cbn [bind].
  destruct (parseInt_returns _ H1) as [pg ->]. cbn [bind].
  rewrite (addressOf_truthy _ Ht). cbv zeta.
  rewrite <- (stringifies_or_else _ "") in H2.
  rewrite <- (stringifies_or_else _ "") in H3.
  rewrite <- (stringifies_or_else _ "") in H4.
  destruct (stringifies_toString _ H2) as [s1 ->]. cbn [bind].
  destruct (stringifies_toString _ H3) as [s2 ->]. cbn [bind].
  destruct (stringifies_toString _ H4) as [s3 ->]. cbn [bind].
  rewrite !(countOf_truthy _ _ _ Ht).
  rewrite <- (stringifies_or_else _ "0") in H5.
  rewrite <- (stringifies_or_else _ "0") in H6.
  rewrite <- (stringifies_or_else _ "0") in H7.
  destruct (parseInt_returns _ H5) as [q1 ->]. cbn [bind].
  destruct (parseInt_returns _ H6) as [q2 ->]. cbn [bind].
  destruct (parseInt_returns _ H7) as [q3 ->]. cbn [bind].
  eexists. reflexivity.
Qed.

Lemma cleanCreditData_coerces (inputData : value) (p : AiContextPayload) :
  cleanCreditData inputData = Ok p -> coercionsSucceed inputData = true.
Proof.
  pose proof (creditReportOf_truthy inputData) as Ht.
  intros H. apply cleanCreditData_inv in H. cbv zeta in H.
  destruct H as (pp & pg & a & q1 & q2 & q3 & Hpp & Hpg & Ha & Hq1 & Hq2 & Hq3 & _).
  rewrite (addressOf_truthy _ Ht) in Ha. cbv zeta in Ha.
  bind_ok Ha s1 Hs1. bind_ok Ha s2 Hs2. bind_ok Ha s3 Hs3.
  rewrite (countOf_truthy _ _ _ Ht) in Hq1.
  rewrite (countOf_truthy _ _ _ Ht) in Hq2.
  rewrite (countOf_truthy _ _ _ Ht) in Hq3.
  apply parseInt_stringifies in Hpp, Hpg, Hq1, Hq2, Hq3.
  apply toString_stringifies in Hs1, Hs2, Hs3.
  rewrite stringifies_or_else in Hs1, Hs2, Hs3, Hq1, Hq2, Hq3.
  unfold coercionsSucceed, coerced. cbv zeta. cbn [forallb].
  rewrite Hpp, Hpg, Hs1, Hs2, Hs3, Hq1, Hq2, Hq3. reflexivity.
Qed.

(** *** Which values convert to a string *)

Lemma toString_cons (x : value) (rest : list value) :
  toString (VArr (x :: rest))
  = (first <- match x with
              | VUndefined | VNull => Ok ""
              | _ => toString x
              end ;;
     match rest with
     | [] => Ok first
     | _ :: _ => others <- toString (VArr rest) ;; Ok (first ++ "," ++ others)
     end).
Proof. reflexivity. Qed.

Lemma stringifies_cons (x : value) (rest : list value) :
  stringifies (VArr (x :: rest)) = stringifies x && stringifies (VArr rest).
Proof.
  unfold stringifies. rewrite toString_cons.
  assert (Helem : match x with
                  | VUndefined | VNull => Ok ""
                  | _ => toString x
                  end = toString x
                  \/ exists s, match x with
                               | VUndefined | VNull => Ok ""
                               | _ => toString x
                               end = Ok "" /\ toString x = Ok s).
  { destruct x; try (left; reflexivity); right; eexists; split; reflexivity. }
  destruct Helem as [->|(s & -> & ->)].
  - destruct (toString x); cbn [bind andb]; [|reflexivity].
    destruct rest; [reflexivity|].
    destruct (toString (VArr (v :: rest))); reflexivity.
  - cbn [bind andb]. destruct rest; [reflexivity|].
    destruct (toString (VArr (v :: rest))); reflexivity.
Qed.

(** ToString throws exactly on a value that is, or holds through arrays,
    an object with an own [toString] property. *)
Lemma stringifies_shadows (v : value) :
  stringifies v = negb (shadowsToString v).
Proof.
  induction v as [| | | | |items IH|fields] using value_array_ind;
    try reflexivity.
  - induction IH as [|x rest Hx _ IHrest]; [reflexivity|].
    rewrite stringifies_cons, Hx, IHrest.
    cbn [shadowsToString existsb]. rewrite negb_orb. reflexivity.
  - unfold stringifies. cbn [toString shadowsToString].
    destruct (hasOwn fields "toString"); reflexivity.
Qed.

Lemma toString_throws (v : value) :
  stringifies v = false -> toString v = Throw TypeError.
Proof.
  unfold stringifies. destruct (toString v) as [s|[]]; [discriminate|reflexivity].
Qed.

(** cleanCreditData returns exactly when none of the eight converted
    values shadows [toString]. *)
Lemma cleanCreditData_returns_iff (inputData : value) :
  (exists p, cleanCreditData inputData = Ok p)
  <-> forallb (fun v => negb (shadowsToString v)) (coerced inputData) = true.
Proof.
  assert (E : forallb (fun v => negb (shadowsToString v)) (coerced inputData)
              = coercionsSucceed inputData).
  { unfold coercionsSucceed.
    induction (coerced inputData) as [|v rest IH]; cbn [forallb]; [reflexivity|].
    rewrite IH, stringifies_shadows. reflexivity. }
  rewrite E. split.
  - intros [p Hp]. exact (cleanCreditData_coerces inputData p Hp).
  - apply cleanCreditData_returns.
Qed.

Lemma cleanCreditData_throws (inputData : value) :
  coercionsSucceed inputData = false ->
  cleanCreditData inputData = Throw TypeError.
Proof.
  intros H. destruct (cleanCreditData inputData) as [p|[]] eqn:E; [|reflexivity].
  rewrite (cleanCreditData_coerces inputData p E) in H. discriminate.
Qed.

(** ** Totality (C1) *)

(** The payload object has the six properties of the object literal,
    whatever the document. *)
Lemma payloadValue_fields (p : AiContextPayload) :
  exists fields,
    payloadValue p = VObj fields
    /\ map fst fields
       = ["identification"; "location"; "financialSummary"; "riskScore";
          "negativeDetails"; "corporateParticipation"].
Proof.
  eexists. split; reflexivity.
Qed.

(** C1 (the code departs from the claim).  The claim: for every
    JSON-compatible input cleanCreditData returns a payload with the fixed
    field set and never throws.  On the JSON document
    [{"body":{"SPCA-XML":{"RESPOSTA":{"ACERTA":{"RESUMO-OCORRENCIAS-DE-DEBITOS":
    {"TOTALDEVEDOR":{"toString":null}}}}}}}] the call
    [parseInt(debitSummary?.TOTALDEVEDOR)] of line 97 converts an object to
    a string; its own [toString] property is not callable and the built-in
    [valueOf] returns the object, so OrdinaryToPrimitive obtains no
    primitive and cleanCreditData throws a TypeError. *)
Theorem C1_cleanCreditData_throws_on_own_toString :
  cleanCreditData shadowedToString = Throw TypeError.
Proof.
  vm_compute. reflexivity.
Qed.

(** ** Monetary parsing (C4) *)

Lemma removeDots_filter (str : string) :
  list_ascii_of_string (Str.removeDots str)
  = filter (fun c => negb (Ascii.eqb c ".")) (list_ascii_of_string str).
Proof.
  induction str as [|c r IH]; cbn [Str.removeDots list_ascii_of_string filter].
  - reflexivity.
  - destruct (Ascii.eqb c "."); cbn [negb list_ascii_of_string]; [exact IH|].
    f_equal. exact IH.
Qed.

Lemma replaceFirstComma_first (before after : string) :
  commaFree before = true ->
  Str.replaceFirstComma (before ++ String "," after) = before ++ String "." after.
Proof.
  induction before as [|c r IH]; cbn [commaFree append Str.replaceFirstComma].
  - reflexivity.
  - intros H. apply andb_true_iff in H as [Hc Hr].
    apply negb_true_iff in Hc. rewrite Hc. f_equal. apply IH, Hr.
Qed.

Lemma replaceFirstComma_none (str : string) :
  commaFree str = true -> Str.replaceFirstComma str = str.
Proof.
  induction str as [|c r IH]; cbn [commaFree Str.replaceFirstComma].
  - reflexivity.
  - intros H. apply andb_true_iff in H as [Hc Hr].
    apply negb_true_iff in Hc. rewrite Hc. f_equal. apply IH, Hr.
Qed.

Lemma n1234567_89_literal : Num.ofDecimal false 123456789 (-2) = n1234567_89.
Proof. vm_compute. reflexivity. Qed.

(** What holds of parseMonetaryValue.  On a string it is [parseFloat] of
    the string with every dot removed and then its first comma replaced by
    a dot; on any value that is not a string (undefined and null included)
    it is [0]; [parseMonetaryValue("1.234.567,89")] is [1234567.89]. *)
Lemma parseMonetaryValue_contract :
  (forall str,
     parseMonetaryValue (VStr str)
     = parseFloat (Str.replaceFirstComma (Str.removeDots str)))
  /\ (forall str,
        list_ascii_of_string (Str.removeDots str)
        = filter (fun c => negb (Ascii.eqb c ".")) (list_ascii_of_string str))
  /\ (forall before after,
        commaFree before = true ->
        Str.replaceFirstComma (before ++ String "," after)
        = before ++ String "." after)
  /\ (forall str, commaFree str = true -> Str.replaceFirstComma str = str)
  /\ (forall v, (forall str, v <> VStr str) -> parseMonetaryValue v = Num.zero)
  /\ parseMonetaryValue (VStr "1.234.567,89") = n1234567_89
  /\ parseMonetaryValue VUndefined = Num.zero
  /\ parseMonetaryValue VNull = Num.zero.
Proof.
  split; [reflexivity|].
  split; [exact removeDots_filter|].
  split; [exact replaceFirstComma_first|].
  split; [exact replaceFirstComma_none|].
  split.
  { intros v Hv. destruct v; try reflexivity. exfalso. exact (Hv s eq_refl). }
  repeat split; vm_compute; reflexivity.
Qed.

(** C4 (the code departs from the claim).  The claim:
    [parseMonetaryValue("")] is [0].  The empty string is a string, so the
    safe-zero guard of line 20 lets it through and the result is
    [parseFloat("")], NaN.  The quantity paths give [0] for the same empty
    string: [parseInt("") || 0] of lines 97-98 and [parseInt("" || "0")] of
    lines 128-140. *)
Theorem C4_empty_string_is_NaN :
  parseMonetaryValue (VStr "") = Num.nan
  /\ parseMonetaryValue (VStr "") <> Num.zero
  /\ (exists n, parseInt (VStr "") = Ok n /\ orZero n = Num.zero)
  /\ parseInt (or_else (VStr "") (VStr "0")) = Ok Num.zero.
Proof.
  split; [vm_compute; reflexivity|].
  split; [vm_compute; discriminate|].
  split; [eexists; split; vm_compute; reflexivity|].
  vm_compute. reflexivity.
Qed.

(** ** The financial summary (C5, C6, C7) *)

Lemma literal_values :
  Num.ofZ 4 = n4
  /\ Num.ofDecimal false 505 (-1) = n50_5
  /\ Num.ofDecimal false 1505 (-1) = n150_5.
Proof. repeat split; vm_compute; reflexivity. Qed.

(** A returned payload exists and is the assembly of the conversions. *)
Lemma cleanCreditData_assembled (inputData : value) :
  coercionsSucceed inputData = true ->
  let creditReport := creditReportOf inputData in
  let debitSummary := own creditReport "RESUMO-OCORRENCIAS-DE-DEBITOS" in
  exists parsedPrincipal parsedGuarantor address_ protestsQty_ legalActionsQty_
         bouncedChecksQty_,
    parseInt (getOpt debitSummary "TOTALDEVEDOR") = Ok parsedPrincipal
    /\ parseInt (getOpt debitSummary "TOTALAVALISTA") = Ok parsedGuarantor
    /\ addressOf creditReport = Ok address_
    /\ countOf creditReport "RESUMO-TITULOS-PROTESTADOS" "TOTAL" = Ok protestsQty_
    /\ countOf creditReport "RESUMO-DE-ACOES-CIVEIS" "QUANTIDADE" = Ok legalActionsQty_
    /\ countOf creditReport "RESUMO-DEVOLUCOES-INFORMADAS-PELO-CCF" "TOTALOCORRENCAS"
       = Ok bouncedChecksQty_
    /\ cleanCreditData inputData
       = Ok (assemble creditReport parsedPrincipal parsedGuarantor address_
               protestsQty_ legalActionsQty_ bouncedChecksQty_).
Proof.
  intros H. destruct (cleanCreditData_returns inputData H) as [p Hp].
  pose proof (cleanCreditData_inv inputData p Hp) as Hinv. cbv zeta in *.
  destruct Hinv as (pp & pg & a & q1 & q2 & q3 & ? & ? & ? & ? & ? & ? & ->).
  exists pp, pg, a, q1, q2, q3. repeat split; assumption.
Qed.

(** C5.  For a document whose conversions succeed, cleanCreditData returns
    a payload whose financialSummary aggregates the principal and the
    guarantor exposure at RESUMO-OCORRENCIAS-DE-DEBITOS: totalDebtsQty is
    the sum of the two parsed quantities TOTALDEVEDOR and TOTALAVALISTA
    (each [parseInt(...) || 0]) and totalDebtsValue is the sum of
    parseMonetaryValue of VALORACOMULADO and of VALORAVALISTA.  So with
    quantities ["3"] and ["1"] totalDebtsQty is 4, and with values
    ["100,00"] and ["50,50"] totalDebtsValue is 150.5. *)
Theorem C5_summary_aggregation (inputData : value) :
  coercionsSucceed inputData = true ->
  let debitSummary :=
    own (creditReportOf inputData) "RESUMO-OCORRENCIAS-DE-DEBITOS" in
  exists p parsedPrincipal parsedGuarantor,
    cleanCreditData inputData = Ok p
    /\ parseInt (getOpt debitSummary "TOTALDEVEDOR") = Ok parsedPrincipal
    /\ parseInt (getOpt debitSummary "TOTALAVALISTA") = Ok parsedGuarantor
    /\ totalDebtsQty (financialSummary p)
       = Num.add (orZero parsedPrincipal) (orZero parsedGuarantor)
    /\ totalDebtsValue (financialSummary p)
       = Num.add (parseMonetaryValue (getOpt debitSummary "VALORACOMULADO"))
                 (parseMonetaryValue (getOpt debitSummary "VALORAVALISTA"))
    /\ (getOpt debitSummary "TOTALDEVEDOR" = VStr "3" ->
        getOpt debitSummary "TOTALAVALISTA" = VStr "1" ->
        totalDebtsQty (financialSummary p) = n4)
    /\ (getOpt debitSummary "VALORACOMULADO" = VStr "100,00" ->
        getOpt debitSummary "VALORAVALISTA" = VStr "50,50" ->
        totalDebtsValue (financialSummary p) = n150_5).
Proof.
  intros H. pose proof (cleanCreditData_assembled inputData H) as Ha.
  cbv zeta in *.
  destruct Ha as (pp & pg & a & q1 & q2 & q3 & Hpp & Hpg & _ & _ & _ & _ & Hp).
  eexists. exists pp, pg. split; [exact Hp|].
  split; [exact Hpp|]. split; [exact Hpg|].
  split; [reflexivity|]. split; [reflexivity|]. split.
  - intros H3 H1. rewrite H3 in Hpp. rewrite H1 in Hpg.
    vm_compute in Hpp. vm_compute in Hpg.
    inversion Hpp. inversion Hpg. subst pp pg.
    vm_compute. reflexivity.
  - intros Hv Hg. cbn [assemble financialSummary totalDebtsValue].
    rewrite Hv, Hg. vm_compute. reflexivity.
Qed.

Lemma C5_summary_aggregation_witness :
  exists p,
    cleanCreditData debitSummaryExample = Ok p
    /\ totalDebtsQty (financialSummary p)
       = Num.add (orZero (Num.ofZ 3)) (orZero (Num.ofZ 1))
    /\ totalDebtsValue (financialSummary p)
       = Num.add (parseMonetaryValue (VStr "100,00"))
                 (parseMonetaryValue (VStr "50,50"))
    /\ totalDebtsQty (financialSummary p) = n4
    /\ totalDebtsValue (financialSummary p) = n150_5.
Proof.
  destruct (C5_summary_aggregation debitSummaryExample eq_refl)
    as (p & pp & pg & Hp & Hpp & Hpg & Hsum & Hvsum & Hqty & Hval).
  exists p. split; [exact Hp|].
  vm_compute in Hpp. vm_compute in Hpg. inversion Hpp. inversion Hpg. subst pp pg.
  split; [exact Hsum|]. split; [exact Hvsum|].
  split; [apply Hqty; reflexivity|apply Hval; reflexivity].
Defined.

(** What holds of the counters: an absent quantity gives [0] in every
    counter, and a principal or guarantor quantity that parses to NaN
    counts as [0]. *)
Lemma counter_absent (creditReport : value) (s f : string) :
  truthy creditReport = true ->
  getOpt (own creditReport s) f = VUndefined ->
  countOf creditReport s f = Ok Num.zero.
Proof.
  intros Ht Habs. rewrite (countOf_truthy _ _ _ Ht), Habs. vm_compute. reflexivity.
Qed.

Lemma debit_quantity_default (str : string) :
  Num.isNaN (parseIntString str) = true ->
  exists n, parseInt (VStr str) = Ok n /\ orZero n = Num.zero.
Proof.
  intros Hn. exists (parseIntString str). split; [reflexivity|].
  destruct (parseIntString str); try discriminate. reflexivity.
Qed.

(** C6 (the code departs from the claim).  The claim: an absent or
    non-numeric quantity makes every counter of financialSummary the number
    0.  With [TOTAL: "abc"] at RESUMO-TITULOS-PROTESTADOS the default of
    line 129 does not apply, because the string is truthy, and protestsQty
    is [parseInt("abc")], which is NaN; the debit quantities of lines 97-98
    put the default outside the call and do give 0. *)
Theorem C6_non_numeric_counter_is_NaN :
  (exists p,
     cleanCreditData nonNumericCounter = Ok p
     /\ protestsQty (financialSummary p) = Num.nan
     /\ protestsQty (financialSummary p) <> Num.zero)
  /\ (exists p,
        cleanCreditData nonNumericDebitQuantity = Ok p
        /\ totalDebtsQty (financialSummary p) = Num.zero).
Proof.
  split.
  - eexists. split; [vm_compute; reflexivity|].
    split; [reflexivity|discriminate].
  - eexists. split; vm_compute; reflexivity.
Qed.

(** C7 (the code departs from the claim).  The claim: an unparsable
    monetary string counts as 0 in the aggregation, so that totalDebtsValue
    is the parsed value of the other component.  With
    [VALORACOMULADO: "abc"] and [VALORAVALISTA: "50,50"] no exception is
    thrown, but parseMonetaryValue returns NaN for ["abc"] and line 104 adds
    it unguarded: totalDebtsValue is NaN, not 50.5. *)
Theorem C7_unparsable_value_gives_NaN :
  exists p,
    cleanCreditData unparsableDebtValue = Ok p
    /\ parseMonetaryValue (VStr "50,50") = n50_5
    /\ totalDebtsValue (financialSummary p) = Num.nan
    /\ totalDebtsValue (financialSummary p) <> n50_5.
Proof.
  eexists. split; [vm_compute; reflexivity|].
  split; [vm_compute; reflexivity|].
  split; [reflexivity|discriminate].
Qed.

(** ** The end-to-end scenario (C8) *)

(** C8.  For a document whose ACERTA node holds the DEBITOS block of the
    scenario (and whose conversions succeed), cleanCreditData returns a
    payload whose negativeDetails.debts is the one record
    [{date: "2023-01-01", value: "1.000,00", creditor: "Bank X"}]: the
    CONTRATO placeholder is left out and the value stays the string it
    was. *)
Theorem C8_debts_scenario (inputData : value) :
  own (creditReportOf inputData) "DEBITOS" = debitosExample ->
  coercionsSucceed inputData = true ->
  processDetailBlock debitosExample (Some "DEBITO") debtsMap = Ok debtsExpected
  /\ exists p,
       cleanCreditData inputData = Ok p
       /\ debts (negativeDetails p) = debtsExpected.
Proof.
  intros Hdeb H. split; [vm_compute; reflexivity|].
  pose proof (cleanCreditData_assembled inputData H) as Ha. cbv zeta in Ha.
  destruct Ha as (pp & pg & a & q1 & q2 & q3 & _ & _ & _ & _ & _ & _ & Hp).
  eexists. split; [exact Hp|].
  cbn [assemble negativeDetails debts]. rewrite Hdeb. vm_compute. reflexivity.
Qed.

Lemma C8_debts_scenario_witness :
  exists p,
    cleanCreditData (envelope (VObj [("DEBITOS", debitosExample)])) = Ok p
    /\ debts (negativeDetails p) = debtsExpected.
Proof.
  exact (proj2 (C8_debts_scenario (envelope (VObj [("DEBITOS", debitosExample)]))
                  eq_refl eq_refl)).
Defined.

(** ** Re-normalization (C9) *)

(** Any payload read as a document has no [body] and degrades. *)
Lemma payload_degrades (p : AiContextPayload) :
  cleanCreditData (payloadValue p) = Ok degradedPayload.
Proof. vm_compute. reflexivity. Qed.

(** C9 (the code departs from the claim).  The claim: for every input x,
    feeding cleanCreditData(x) back into cleanCreditData does not throw and
    gives cleanCreditData({}).  The second pass never throws: every payload
    degrades to the payload of the empty object.  But on the document of
    C1, whose principal-debt quantity is [{"toString": null}], the first
    pass throws a TypeError, there is no output to feed back, and the
    composition throws.  The composition is the degraded payload exactly
    when the first pass returns. *)
Theorem C9_renormalization_throws_with_first_pass :
  renormalized shadowedToString = Throw TypeError
  /\ cleanCreditData (VObj []) = Ok degradedPayload
  /\ (forall p, cleanCreditData (payloadValue p) = cleanCreditData (VObj []))
  /\ (forall x,
        renormalized x
        = match cleanCreditData x with
          | Ok _ => Ok degradedPayload
          | Throw e => Throw e
          end).
Proof.
  split; [vm_compute; reflexivity|].
  split; [vm_compute; reflexivity|].
  split; [intros p; vm_compute; reflexivity|].
  intros x. unfold renormalized.
  destruct (cleanCreditData x) as [p|e]; cbn [bind]; [apply payload_degrades|reflexivity].
Qed.

(** ** Trimming *)

Section DropEncoded.

Variable p1 : N -> bool.
Variable p2 : N -> N -> bool.
Variable p3 : N -> N -> N -> bool.

(** What is dropped is a sequence of recognised code points. *)
Lemma dropEncoded_segments (n : nat) :
  forall l, (List.length l <= n)%nat ->
  exists segs,
    l = (List.concat segs ++ Str.dropEncoded p1 p2 p3 l)%list
    /\ Forall (segment p1 p2 p3) segs.
Proof.
  induction n as [|n IH]; intros l Hlen.
  - destruct l; [|cbn in Hlen; lia]. exists []. split; [reflexivity|constructor].
  - destruct l as [|a r1]; [exists []; split; [reflexivity|constructor]|].
    cbn [Str.dropEncoded]. cbn [List.length] in Hlen.
    destruct (p1 (Str.code a)) eqn:E1.
    { destruct (IH r1 ltac:(lia)) as (segs & Hl & Hs).
      exists ([a] :: segs). split.
      - cbn [List.concat app]. f_equal. exact Hl.
      - constructor; [exact E1|exact Hs]. }
    destruct r1 as [|b r2]; [exists []; split; [reflexivity|constructor]|].
    cbn [List.length] in Hlen.
    destruct (p2 (Str.code a) (Str.code b)) eqn:E2.
    { destruct (IH r2 ltac:(lia)) as (segs & Hl & Hs).
      exists ([a; b] :: segs). split.
      - cbn [List.concat app]. do 2 f_equal. exact Hl.
      - constructor; [exact E2|exact Hs]. }
    destruct r2 as [|c r3]; [exists []; split; [reflexivity|constructor]|].
    cbn [List.length] in Hlen.
    destruct (p3 (Str.code a) (Str.code b) (Str.code c)) eqn:E3.
    { destruct (IH r3 ltac:(lia)) as (segs & Hl & Hs).
      exists ([a; b; c] :: segs). split.
      - cbn [List.concat app]. do 3 f_equal. exact Hl.
      - constructor; [exact E3|exact Hs]. }
    exists []. split; [reflexivity|constructor].
Qed.

End DropEncoded.

Lemma whiteSpace_app (l1 l2 : list ascii) :
  whiteSpace l1 -> whiteSpace l2 -> whiteSpace (l1 ++ l2)%list.
Proof.
  intros H1 H2.
  induction H1 as [|a l Ha _ IH|a b l Hab _ IH|a b c l Habc _ IH]; cbn [app].
  - exact H2.
  - apply whiteSpace_one; assumption.
  - apply whiteSpace_two; assumption.
  - apply whiteSpace_three; assumption.
Qed.

Lemma whiteSpace_forward (segs : list (list ascii)) :
  Forall (segment Str.ws1 Str.ws2 Str.ws3) segs -> whiteSpace (List.concat segs).
Proof.
  induction 1 as [|seg rest Hseg _ IH]; cbn [List.concat]; [constructor|].
  apply whiteSpace_app; [|exact IH].
  destruct seg as [|a [|b [|c [|d t]]]]; cbn in Hseg; try contradiction;
    constructor; try assumption; constructor.
Qed.

Lemma whiteSpace_backward (segs : list (list ascii)) :
  Forall (segment Str.ws1 (fun a b => Str.ws2 b a) (fun a b c => Str.ws3 c b a)) segs ->
  whiteSpace (List.rev (List.concat segs)).
Proof.
  induction 1 as [|seg rest Hseg _ IH]; cbn [List.concat]; [constructor|].
  rewrite rev_app_distr. apply whiteSpace_app; [exact IH|].
  destruct seg as [|a [|b [|c [|d t]]]]; cbn in Hseg; try contradiction;
    cbn [List.rev app]; constructor; try assumption; constructor.
Qed.

Lemma ws1_not_comma (x : N) : Str.ws1 x = true -> x <> 44%N.
Proof.
  unfold Str.ws1. intros H ->. discriminate H.
Qed.

Lemma ws2_high (x y : N) :
  Str.ws2 x y = true -> (128 <= x /\ 128 <= y)%N.
Proof.
  unfold Str.ws2. rewrite andb_true_iff, !N.eqb_eq. lia.
Qed.

Lemma ws3_high (x y z : N) :
  Str.ws3 x y z = true -> (128 <= x /\ 128 <= y /\ 128 <= z)%N.
Proof.
  unfold Str.ws3.
  rewrite !orb_true_iff, !andb_true_iff, !orb_true_iff, !andb_true_iff,
    !N.eqb_eq, !N.leb_le.
  lia.
Qed.

Lemma whiteSpace_no_comma (l : list ascii) :
  whiteSpace l -> ~ In ","%char l.
Proof.
  induction 1 as [|a l Ha _ IH|a b l Hab _ IH|a b c l Habc _ IH]; cbn [In].
  - tauto.
  - apply ws1_not_comma in Ha.
    intros [->|Hin]; [apply Ha; reflexivity|tauto].
  - apply ws2_high in Hab as [Ha Hb].
    intros [->|[->|Hin]]; [cbn in Ha; lia|cbn in Hb; lia|tauto].
  - apply ws3_high in Habc as (Ha & Hb & Hc).
    intros [->|[->|[->|Hin]]];
      [cbn in Ha; lia|cbn in Hb; lia|cbn in Hc; lia|tauto].
Qed.

Lemma string_of_list_ascii_app (l1 l2 : list ascii) :
  string_of_list_ascii (l1 ++ l2)%list
  = (string_of_list_ascii l1 ++ string_of_list_ascii l2)%string.
Proof.
  induction l1 as [|a l1 IH]; cbn; [reflexivity|]. f_equal. exact IH.
Qed.

Lemma list_ascii_of_string_app (s1 s2 : string) :
  list_ascii_of_string (s1 ++ s2)
  = (list_ascii_of_string s1 ++ list_ascii_of_string s2)%list.
Proof.
  induction s1 as [|a s1 IH]; cbn; [reflexivity|]. f_equal. exact IH.
Qed.

(** [trim] removes a run of white space at each end and nothing else. *)
Lemma trim_split (s : string) :
  exists pre post,
    s = (pre ++ Str.trim s ++ post)%string
    /\ whiteSpace (list_ascii_of_string pre)
    /\ whiteSpace (list_ascii_of_string post).
Proof.
  set (l := list_ascii_of_string s).
  destruct (dropEncoded_segments Str.ws1 Str.ws2 Str.ws3 (List.length l) l (le_n _))
    as (front & Hfront & Hf).
  fold Str.dropWs in Hfront.
  set (m := Str.dropWs l) in *.
  destruct (dropEncoded_segments Str.ws1 (fun a b => Str.ws2 b a)
              (fun a b c => Str.ws3 c b a) (List.length (List.rev m)) (List.rev m)
              (le_n _)) as (back & Hback & Hb).
  fold Str.dropWsRev in Hback.
  exists (string_of_list_ascii (List.concat front)),
         (string_of_list_ascii (List.rev (List.concat back))).
  rewrite !list_ascii_of_string_of_list_ascii.
  split; [|split; [apply whiteSpace_forward, Hf|apply whiteSpace_backward, Hb]].
  unfold Str.trim. fold l. fold m.
  rewrite <- !string_of_list_ascii_app.
  rewrite <- rev_app_distr, <- Hback, rev_involutive, <- Hfront.
  unfold l. symmetry. apply string_of_list_ascii_of_string.
Qed.

Lemma trim_keeps_comma (s : string) :
  In ","%char (list_ascii_of_string s) ->
  exists before after, Str.trim s = (before ++ String "," after)%string.
Proof.
  intros Hin. destruct (trim_split s) as (pre & post & Hs & Hpre & Hpost).
  rewrite Hs in Hin. rewrite !list_ascii_of_string_app in Hin.
  apply in_app_or in Hin as [Hin|Hin];
    [exfalso; exact (whiteSpace_no_comma _ Hpre Hin)|].
  apply in_app_or in Hin as [Hin|Hin];
    [|exfalso; exact (whiteSpace_no_comma _ Hpost Hin)].
  apply in_split in Hin as (l1 & l2 & Hl).
  exists (string_of_list_ascii l1), (string_of_list_ascii l2).
  rewrite <- (string_of_list_ascii_of_string (Str.trim s)), Hl.
  rewrite string_of_list_ascii_app. reflexivity.
Qed.

(** ** The address (C10) *)

Lemma template_has_comma (part1 part2 part3 : string) :
  In ","%char (list_ascii_of_string (part1 ++ " " ++ part2 ++ ", " ++ part3)).
Proof.
  rewrite !list_ascii_of_string_app. apply in_or_app. right.
  apply in_or_app. right. apply in_or_app. right.
  apply in_or_app. left. left. reflexivity.
Qed.

(** C10.  For a document whose conversions succeed, cleanCreditData
    returns a payload whose location.address
    - is the one-character string [","] when the LOCALIZACAO node is absent
      or its three address parts are;
    - is the concatenation of the template with a run of white space taken
      off each end and nothing else, so that what lies inside survives;
    - contains the comma of the template, and so is never empty. *)
Theorem C10_address_of_absent_parts (inputData : value) :
  coercionsSucceed inputData = true ->
  let localizacao := own (creditReportOf inputData) "LOCALIZACAO" in
  exists p,
    cleanCreditData inputData = Ok p
    /\ (localizacao = VUndefined
        \/ (getOpt localizacao "TIPOLOGRADOURO" = VUndefined
            /\ getOpt localizacao "NOMELOGRADOURO" = VUndefined
            /\ getOpt localizacao "NUMEROLOGRADOURO" = VUndefined) ->
        address (location p) = ",")
    /\ (exists part1 part2 part3 pre post,
          toString (or_else (getOpt localizacao "TIPOLOGRADOURO") (VStr "")) = Ok part1
          /\ toString (or_else (getOpt localizacao "NOMELOGRADOURO") (VStr "")) = Ok part2
          /\ toString (or_else (getOpt localizacao "NUMEROLOGRADOURO") (VStr "")) = Ok part3
          /\ part1 ++ " " ++ part2 ++ ", " ++ part3 = pre ++ address (location p) ++ post
          /\ whiteSpace (list_ascii_of_string pre)
          /\ whiteSpace (list_ascii_of_string post))
    /\ (exists before after, address (location p) = before ++ String "," after)
    /\ address (location p) <> "".
Proof.
  intros H. pose proof (creditReportOf_truthy inputData) as Ht.
  pose proof (cleanCreditData_assembled inputData H) as Ha. cbv zeta in *.
  destruct Ha as (pp & pg & a & q1 & q2 & q3 & _ & _ & Haddr & _ & _ & _ & Hp).
  eexists. split; [exact Hp|]. cbn [assemble location address].
  rewrite (addressOf_truthy _ Ht) in Haddr. cbv zeta in Haddr.
  bind_ok Haddr s1 Hs1. bind_ok Haddr s2 Hs2. bind_ok Haddr s3 Hs3.
  inversion Haddr as [Htrim]. clear Haddr. subst a.
  assert (Hcomma : exists before after,
             Str.trim (s1 ++ " " ++ s2 ++ ", " ++ s3) = before ++ String "," after)
    by apply trim_keeps_comma, template_has_comma.
  split; [|split; [|split; [exact Hcomma|]]].
  - intros Habs.
    assert (Hparts : getOpt (own (creditReportOf inputData) "LOCALIZACAO") "TIPOLOGRADOURO"
                     = VUndefined
                     /\ getOpt (own (creditReportOf inputData) "LOCALIZACAO") "NOMELOGRADOURO"
                        = VUndefined
                     /\ getOpt (own (creditReportOf inputData) "LOCALIZACAO") "NUMEROLOGRADOURO"
                        = VUndefined).
    { destruct Habs as [Hloc|Hparts]; [rewrite Hloc; repeat split|exact Hparts]. }
    destruct Hparts as (E1 & E2 & E3).
    rewrite E1 in Hs1. rewrite E2 in Hs2. rewrite E3 in Hs3.
    cbn in Hs1, Hs2, Hs3. inversion Hs1. inversion Hs2. inversion Hs3.
    vm_compute. reflexivity.
  - destruct (trim_split (s1 ++ " " ++ s2 ++ ", " ++ s3))
      as (pre & post & Hsplit & Hpre & Hpost).
    exists s1, s2, s3, pre, post. repeat split; assumption.
  - destruct Hcomma as (before & after & E). cbn [append] in E |- *.
    rewrite E. destruct before; discriminate.
Qed.

Lemma C10_address_of_absent_parts_witness :
  (exists p,
     cleanCreditData (VObj []) = Ok p /\ address (location p) = ",")
  /\ (exists p,
        cleanCreditData partialAddress = Ok p
        /\ address (location p) <> "").
Proof.
  split.
  - destruct (C10_address_of_absent_parts (VObj []) eq_refl)
      as (p & Hp & Habsent & _).
    exists p. split; [exact Hp|]. apply Habsent. left. reflexivity.
  - destruct (C10_address_of_absent_parts partialAddress eq_refl)
      as (p & Hp & _ & _ & _ & Hne).
    exists p. split; [exact Hp|exact Hne].
Defined.

Example partialAddress_value :
  exists p,
    cleanCreditData partialAddress = Ok p
    /\ address (location p) = "Rua , 10".
Proof.
  eexists. split; vm_compute; reflexivity.
Qed.

(** * Further properties of the code *)

(** ** When cleanCreditData returns and what it returns without a report *)

(** X1.  On a document whose eight converted values (the two debit
    quantities, the three address parts, the three counters) hold no array
    inside an array, cleanCreditData returns a payload when none of them
    is, or holds in an array, an object with an own [toString] property,
    and throws a TypeError otherwise. *)
Theorem X1_returns_or_throws (inputData : value) :
  forallb shallow (coerced inputData) = true ->
  if forallb (fun v => negb (shadowsToString v)) (coerced inputData)
  then exists p, cleanCreditData inputData = Ok p
  else cleanCreditData inputData = Throw TypeError.
Proof.
  intros _. destruct (forallb _ (coerced inputData)) eqn:E.
  - apply cleanCreditData_returns_iff. exact E.
  - destruct (cleanCreditData inputData) as [p|[]] eqn:Hp; [|reflexivity].
    assert (Hex : exists q, cleanCreditData inputData = Ok q) by (exists p; exact Hp).
    apply cleanCreditData_returns_iff in Hex. rewrite Hex in E. discriminate.
Qed.

(** The result is a function of the values at the sections read. *)
Lemma cleanCreditData_sections (input1 input2 : value) :
  (forall s, In s sectionsRead ->
             own (creditReportOf input1) s = own (creditReportOf input2) s) ->
  cleanCreditData input1 = cleanCreditData input2.
Proof.
  intros H.
  pose proof (creditReportOf_truthy input1) as T1.
  pose proof (creditReportOf_truthy input2) as T2.
  rewrite !cleanCreditData_steps. cbv zeta.
  rewrite (addressOf_truthy _ T1), (addressOf_truthy _ T2).
  rewrite !(countOf_truthy _ _ _ T1), !(countOf_truthy _ _ _ T2).
  repeat first
    [ rewrite H by (cbn [sectionsRead In]; tauto)
    | same_bind
    | progress cbn [bind] ].
  unfold assemble. cbv zeta.
  repeat rewrite H by (cbn [sectionsRead In]; tauto).
  reflexivity.
Qed.

(** X2.  A document whose report holds none of the thirteen sections the
    program reads (no node at the anchor path, a falsy one, a string, a
    number, an array, or an object with other properties only) yields the
    degraded payload: every scalar undefined, the address [","], every
    figure [0], every list empty. *)
Theorem X2_no_report_degrades (inputData : value) :
  (forall s, In s sectionsRead -> own (creditReportOf inputData) s = VUndefined) ->
  cleanCreditData inputData = Ok degradedPayload.
Proof.
  intros Hno. rewrite (cleanCreditData_sections inputData (VObj [])).
  - vm_compute. reflexivity.
  - intros s Hs. rewrite (Hno s Hs). reflexivity.
Qed.

Lemma X2_no_report_degrades_witness :
  cleanCreditData VNull = Ok degradedPayload
  /\ cleanCreditData scalarReport = Ok degradedPayload
  /\ cleanCreditData metadataOnly = Ok degradedPayload.
Proof.
  split; [|split]; apply X2_no_report_degrades; intros s Hs;
    cbn [sectionsRead In] in Hs;
    repeat (destruct Hs as [<-|Hs]; [reflexivity|]); destruct Hs.
Defined.

(** ** The unifier *)

(** X3.  The three shapes of one record list give the same records: a
    wrapper with REGISTRO ["S"] is processed as the array at its unwrap key
    (a single value there as a one-element array) when that value is
    truthy, and as the one-element array of itself otherwise or when no
    unwrap key is given. *)
Theorem X3_shapes_agree (fields : list (string * value)) (key : string)
  (keyMap : renameMap) :
  dataKeyOk (Some key) = true ->
  renameMapOk keyMap = true ->
  lookup fields "REGISTRO" = VStr "S" ->
  processDetailBlock (VObj fields) (Some key) keyMap
  = processDetailBlock
      (VArr (if truthy (lookup fields key)
             then toDataArray (lookup fields key)
             else [VObj fields]))
      (Some key) keyMap
  /\ processDetailBlock (VObj fields) None keyMap
     = processDetailBlock (VArr [VObj fields]) None keyMap.
Proof.
  intros Hkey _ Hreg. rewrite !processDetailBlock_unify.
  assert (Hne : negb (String.length key =? 0)%nat = true).
  { destruct key; [discriminate Hkey|reflexivity]. }
  split.
  - unfold classify at 1. cbn [truthy negb]. rewrite Hreg.
    cbn [strictEqStr String.eqb Ascii.eqb Bool.eqb]. rewrite Hne. cbn [andb].
    destruct (truthy (lookup fields key)); reflexivity.
  - unfold classify at 1. cbn [truthy negb]. rewrite Hreg. reflexivity.
Qed.

Lemma X3_shapes_agree_witness :
  processDetailBlock wrappedPair (Some "DEBITO") debtsMap
  = processDetailBlock
      (VArr [VObj [("VALOR", VStr "10,00")]; VObj [("VALOR", VStr "20,00")]])
      (Some "DEBITO") debtsMap
  /\ processDetailBlock bareScore None riskScoreMap
     = processDetailBlock (VArr [bareScore]) None riskScoreMap.
Proof.
  split.
  - exact (proj1 (X3_shapes_agree
                    [("REGISTRO", VStr "S");
                     ("DEBITO",
                      VArr [VObj [("VALOR", VStr "10,00")];
                            VObj [("VALOR", VStr "20,00")]])]
                    "DEBITO" debtsMap eq_refl eq_refl eq_refl)).
  - exact (proj2 (X3_shapes_agree
                    [("REGISTRO", VStr "S"); ("NOMESCORE", VStr "Score 12 meses");
                     ("SCORE", VStr "700")]
                    "DEBITO" riskScoreMap eq_refl eq_refl eq_refl)).
Defined.

Lemma filter_length_bound {A : Type} (f : A -> bool) (l : list A) :
  (List.length (filter f l) <= List.length l)%nat.
Proof.
  induction l as [|x rest IH]; cbn [filter List.length]; [lia|].
  destruct (f x); cbn [List.length]; lia.
Qed.

(** X4.  Over arrays processDetailBlock works element by element: the
    records of a concatenation are the records of the first part followed
    by those of the second, and there are never more records than
    elements. *)
Theorem X4_array_concatenation (items1 items2 : list value)
  (dataKey : option string) (keyMap : renameMap) :
  dataKeyOk dataKey = true ->
  renameMapOk keyMap = true ->
  exists out1 out2,
    processDetailBlock (VArr items1) dataKey keyMap = Ok out1
    /\ processDetailBlock (VArr items2) dataKey keyMap = Ok out2
    /\ processDetailBlock (VArr (items1 ++ items2)%list) dataKey keyMap
       = Ok (out1 ++ out2)%list
    /\ (List.length out1 <= List.length items1)%nat.
Proof.
  intros _ _. rewrite !processDetailBlock_unify.
  cbn [classify truthy negb rawRecords]. unfold normalizeAll.
  eexists. eexists. split; [reflexivity|]. split; [reflexivity|]. split.
  - rewrite filter_app, map_app. reflexivity.
  - rewrite length_map. apply filter_length_bound.
Qed.

Lemma X4_array_concatenation_witness :
  exists out1 out2,
    processDetailBlock (VArr noisyDebts) (Some "DEBITO") debtsMap = Ok out1
    /\ processDetailBlock (VArr plainDebts) (Some "DEBITO") debtsMap = Ok out2
    /\ processDetailBlock (VArr (noisyDebts ++ plainDebts)%list) (Some "DEBITO") debtsMap
       = Ok (out1 ++ out2)%list
    /\ (List.length out1 <= List.length noisyDebts)%nat.
Proof.
  exact (X4_array_concatenation noisyDebts plainDebts (Some "DEBITO") debtsMap
           eq_refl eq_refl).
Defined.

Lemma normalizedRecord_agree (keyMap : renameMap) (a b : value) :
  (forall entry, In entry keyMap -> own a (fst entry) = own b (fst entry)) ->
  forall newItem,
    fold_left (renameStep a) keyMap newItem = fold_left (renameStep b) keyMap newItem.
Proof.
  induction keyMap as [|entry rest IH]; intros H newItem; cbn [fold_left].
  - reflexivity.
  - unfold renameStep at 2 4. rewrite (H entry (or_introl eq_refl)).
    apply IH. intros e He. apply H. right. exact He.
Qed.

Lemma contributes_agree (keyMap : renameMap) (a b : value) :
  agreeOn keyMap a b -> contributes keyMap a = contributes keyMap b.
Proof.
  intros [Hobj Hown]. unfold contributes. rewrite Hobj. f_equal.
  induction keyMap as [|entry rest IH]; cbn [existsb]; [reflexivity|].
  rewrite (Hown entry (or_introl eq_refl)). f_equal.
  apply IH. intros e He. apply Hown. right. exact He.
Qed.

(** X5.  Only the source keys of the rename map are read: two arrays whose
    elements are pairwise alike for the map (both objects or both not, the
    same values at the source keys) give the same records, whatever else
    the elements hold. *)
Theorem X5_other_fields_ignored (items1 items2 : list value)
  (dataKey : option string) (keyMap : renameMap) :
  dataKeyOk dataKey = true ->
  renameMapOk keyMap = true ->
  Forall2 (agreeOn keyMap) items1 items2 ->
  processDetailBlock (VArr items1) dataKey keyMap
  = processDetailBlock (VArr items2) dataKey keyMap.
Proof.
  intros _ _ Hall. rewrite !processDetailBlock_unify.
  cbn [classify truthy negb rawRecords]. unfold normalizeAll. f_equal.
  induction Hall as [|a b l1 l2 Hab _ IH]; cbn [filter]; [reflexivity|].
  rewrite (contributes_agree keyMap a b Hab).
  destruct (contributes keyMap b); cbn [map]; [|exact IH].
  f_equal; [|exact IH].
  rewrite !normalizedRecord_fold. apply normalizedRecord_agree. exact (proj2 Hab).
Qed.

Lemma X5_other_fields_ignored_witness :
  processDetailBlock (VArr noisyDebts) (Some "DEBITO") debtsMap
  = processDetailBlock (VArr plainDebts) (Some "DEBITO") debtsMap.
Proof.
  apply X5_other_fields_ignored; [reflexivity|reflexivity|].
  unfold noisyDebts, plainDebts.
  apply Forall2_cons; [|apply Forall2_cons; [|apply Forall2_nil]].
  - split; [reflexivity|]. intros entry Hin. cbn [debtsMap In] in Hin.
    destruct Hin as [<-|[<-|[<-|[<-|[]]]]]; reflexivity.
  - split; [reflexivity|]. intros entry _. reflexivity.
Defined.

Lemma X1_returns_or_throws_witness :
  cleanCreditData shadowedAddress = Throw TypeError
  /\ exists p, cleanCreditData fullAddress = Ok p.
Proof.
  split.
  - exact (X1_returns_or_throws shadowedAddress eq_refl).
  - exact (X1_returns_or_throws fullAddress eq_refl).
Defined.

Lemma setProp_fresh (r : record) (k : string) (v : value) :
  hasOwn r k = false -> setProp r k v = (r ++ [(k, v)])%list.
Proof.
  induction r as [|[k' v'] rest IH]; cbn [setProp hasOwn app]; [reflexivity|].
  intros H. apply orb_false_iff in H as [Hk Hrest].
  rewrite Hk, (IH Hrest). reflexivity.
Qed.

Lemma hasOwn_app (r1 r2 : record) (k : string) :
  hasOwn (r1 ++ r2)%list k = hasOwn r1 k || hasOwn r2 k.
Proof.
  induction r1 as [|[k' v'] rest IH]; cbn [hasOwn app]; [reflexivity|].
  rewrite IH, orb_assoc. reflexivity.
Qed.

Lemma fold_rename_project (item : value) (keyMap : renameMap) :
  NoDup (map snd keyMap) ->
  forall newItem,
    (forall entry, In entry keyMap -> hasOwn newItem (snd entry) = false) ->
    fold_left (renameStep item) keyMap newItem
    = (newItem ++ projectRecord keyMap item)%list.
Proof.
  unfold projectRecord.
  induction keyMap as [|entry rest IH]; intros Hnd newItem Hfresh;
    cbn [fold_left filter map].
  - rewrite app_nil_r. reflexivity.
  - cbn [map] in Hnd. inversion Hnd as [|o os Hnotin Hnd']. subst o os.
    unfold renameStep at 2.
    destruct (populated (own item (fst entry))) eqn:Hpop.
    + rewrite (setProp_fresh _ _ _ (Hfresh entry (or_introl eq_refl))).
      rewrite (IH Hnd').
      * cbn [map]. rewrite <- app_assoc. reflexivity.
      * intros e He. rewrite hasOwn_app, (Hfresh e (or_intror He)).
        cbn [hasOwn orb]. rewrite orb_false_r.
        apply String.eqb_neq. intros Heq. apply Hnotin. rewrite Heq.
        apply in_map. exact He.
    + apply (IH Hnd'). intros e He. apply Hfresh. right. exact He.
Qed.

(** X6.  Under a rename map with distinct output names, each record is
    the list of the populated pairs in the order of the map: every output
    name with the element's own value at its source key, nothing parsed or
    converted. *)
Theorem X6_record_in_map_order (block : value) (dataKey : option string)
  (keyMap : renameMap) :
  dataKeyOk dataKey = true ->
  renameMapOk keyMap = true ->
  NoDup (map snd keyMap) ->
  processDetailBlock block dataKey keyMap
  = Ok (map (projectRecord keyMap)
          (filter (contributes keyMap) (rawRecords block (classify block dataKey)))).
Proof.
  intros _ _ Hnd. rewrite processDetailBlock_unify. unfold normalizeAll.
  f_equal. apply map_ext. intros item.
  rewrite normalizedRecord_fold, (fold_rename_project item keyMap Hnd []).
  - reflexivity.
  - intros entry _. reflexivity.
Qed.

Lemma NoDup_outputs_of_the_maps :
  NoDup (map snd riskScoreMap) /\ NoDup (map snd debtsMap)
  /\ NoDup (map snd protestsMap) /\ NoDup (map snd civilActionsMap)
  /\ NoDup (map snd bankruptcyMap) /\ NoDup (map snd participationMap).
Proof.
  repeat split;
    repeat (constructor;
            [cbn [In]; intros H;
             repeat (destruct H as [H|H]; [discriminate H|]); exact H|]);
    constructor.
Qed.

Lemma X6_record_in_map_order_witness :
  processDetailBlock debitosExample (Some "DEBITO") debtsMap
  = Ok (map (projectRecord debtsMap)
          (filter (contributes debtsMap)
             (rawRecords debitosExample (classify debitosExample (Some "DEBITO"))))).
Proof.
  apply X6_record_in_map_order; [reflexivity|reflexivity|].
  exact (proj1 (proj2 NoDup_outputs_of_the_maps)).
Defined.

(** ** How cleanCreditData uses processDetailBlock *)

(** X7.  In a returned payload each list is what processDetailBlock
    returns for its own section of the report with the unwrap key and
    rename map of that section (riskScore with no unwrap key); no list
    depends on another section or on the summary fields. *)
Theorem X7_lists_are_their_sections (inputData : value) (p : AiContextPayload) :
  cleanCreditData inputData = Ok p ->
  let section := own (creditReportOf inputData) in
  processDetailBlock (section "SCORE-CLASSIFICACAO-VARIOS-MODELOS") None riskScoreMap
  = Ok (riskScore p)
  /\ processDetailBlock (section "DEBITOS") (Some "DEBITO") debtsMap
     = Ok (debts (negativeDetails p))
  /\ processDetailBlock (section "TITULOS-PROTESTADOS") (Some "TITULO-PROTESTADO")
       protestsMap
     = Ok (protests (negativeDetails p))
  /\ processDetailBlock (section "RELACAO-DE-ACOES-CIVEIS") (Some "ACAO-CIVEL")
       civilActionsMap
     = Ok (civilActions (negativeDetails p))
  /\ processDetailBlock (section "RELACAO-FALENCIA-RECUPERACAO-JUDICIAL")
       (Some "FALENCIA-RECUPERACAO-JUDICIAL") bankruptcyMap
     = Ok (bankruptcy (negativeDetails p))
  /\ processDetailBlock (section "PARTICIPACOES-DO-DOCUMENTO-CONSULTADO")
       (Some "PARTICIPACAO-EM-EMPRESA") participationMap
     = Ok (corporateParticipation p).
Proof.
  intros Hp. apply cleanCreditData_inv in Hp. cbv zeta in *.
  destruct Hp as (pp & pg & a & q1 & q2 & q3 & _ & _ & _ & _ & _ & _ & ->).
  rewrite !processDetailBlock_unify. repeat split; reflexivity.
Qed.

Lemma X7_lists_are_their_sections_witness :
  exists p,
    cleanCreditData (envelope (VObj [("DEBITOS", debitosExample)])) = Ok p
    /\ processDetailBlock debitosExample (Some "DEBITO") debtsMap
       = Ok (debts (negativeDetails p)).
Proof.
  destruct (cleanCreditData_returns (envelope (VObj [("DEBITOS", debitosExample)]))
              eq_refl) as [p Hp].
  exists p. split; [exact Hp|].
  exact (proj1 (proj2 (X7_lists_are_their_sections _ p Hp))).
Defined.

(** ** Reading well-formed numbers *)

Lemma ws2_low_first (x y : N) : (x < 128)%N -> Str.ws2 x y = false.
Proof.
  intros H. destruct (Str.ws2 x y) eqn:E; [|reflexivity].
  apply ws2_high in E. lia.
Qed.

Lemma ws2_low_second (x y : N) : (y < 128)%N -> Str.ws2 x y = false.
Proof.
  intros H. destruct (Str.ws2 x y) eqn:E; [|reflexivity].
  apply ws2_high in E. lia.
Qed.

Lemma ws3_low_first (x y z : N) : (x < 128)%N -> Str.ws3 x y z = false.
Proof.
  intros H. destruct (Str.ws3 x y z) eqn:E; [|reflexivity].
  apply ws3_high in E. lia.
Qed.

Lemma ws3_low_third (x y z : N) : (z < 128)%N -> Str.ws3 x y z = false.
Proof.
  intros H. destruct (Str.ws3 x y z) eqn:E; [|reflexivity].
  apply ws3_high in E. lia.
Qed.

Lemma dropEncoded_head (p1 : N -> bool) (p2 : N -> N -> bool)
  (p3 : N -> N -> N -> bool) (a : ascii) (t : list ascii) :
  p1 (Str.code a) = false ->
  (forall y, p2 (Str.code a) y = false) ->
  (forall y z, p3 (Str.code a) y z = false) ->
  Str.dropEncoded p1 p2 p3 (a :: t) = (a :: t)%list.
Proof.
  intros H1 H2 H3. cbn [Str.dropEncoded]. rewrite H1.
  destruct t as [|b [|c r]]; [reflexivity| |]; rewrite H2; [reflexivity|].
  rewrite H3. reflexivity.
Qed.

Lemma dropWs_head (a : ascii) (t : list ascii) :
  (Str.code a < 128)%N -> Str.ws1 (Str.code a) = false ->
  Str.dropWs (a :: t) = (a :: t)%list.
Proof.
  intros Hlow H1. apply dropEncoded_head; [exact H1| |].
  - intros y. apply ws2_low_first, Hlow.
  - intros y z. apply ws3_low_first, Hlow.
Qed.

Lemma dropWsRev_head (a : ascii) (t : list ascii) :
  (Str.code a < 128)%N -> Str.ws1 (Str.code a) = false ->
  Str.dropWsRev (a :: t) = (a :: t)%list.
Proof.
  intros Hlow H1. apply dropEncoded_head; [exact H1| |].
  - intros y. apply ws2_low_second, Hlow.
  - intros y z. apply ws3_low_third, Hlow.
Qed.

Lemma isDigit_code (c : ascii) :
  Str.isDigit c = true -> (48 <= Str.code c <= 57)%N.
Proof.
  unfold Str.isDigit. rewrite andb_true_iff, !N.leb_le. tauto.
Qed.

Lemma digit_not_space (c : ascii) :
  Str.isDigit c = true -> (Str.code c < 128)%N /\ Str.ws1 (Str.code c) = false.
Proof.
  intros H. apply isDigit_code in H. split; [lia|].
  unfold Str.ws1. destruct (N.leb_spec 9 (Str.code c)), (N.leb_spec (Str.code c) 13),
    (N.eqb_spec (Str.code c) 32); cbn; try reflexivity; lia.
Qed.

Lemma trimStart_digit (c : ascii) (r : string) :
  Str.isDigit c = true -> Str.trimStart (String c r) = String c r.
Proof.
  intros H. destruct (digit_not_space c H) as [Hlow Hws].
  unfold Str.trimStart. cbn [list_ascii_of_string].
  rewrite (dropWs_head c _ Hlow Hws). cbn [string_of_list_ascii].
  rewrite string_of_list_ascii_of_string. reflexivity.
Qed.

Lemma digit_not_char (c d : ascii) :
  Str.isDigit c = true -> Str.isDigit d = false -> Ascii.eqb c d = false.
Proof.
  intros Hc Hd. apply Ascii.eqb_neq. intros ->. rewrite Hc in Hd. discriminate.
Qed.

Lemma sign_digit (c : ascii) (r : string) :
  Str.isDigit c = true -> Str.sign (String c r) = (false, String c r).
Proof.
  intros H. unfold Str.sign.
  rewrite (digit_not_char c "-" H eq_refl), (digit_not_char c "+" H eq_refl).
  reflexivity.
Qed.

Lemma prefix_Infinity_digit (c : ascii) (r : string) :
  Str.isDigit c = true -> prefix "Infinity" (String c r) = false.
Proof.
  intros H. cbn [prefix].
  destruct (ascii_dec "I" c) as [<-|_]; [discriminate H|reflexivity].
Qed.

Lemma span_digits (digits rest : string) :
  allDigits digits = true ->
  match rest with
  | String c _ => Str.isDigit c = false
  | EmptyString => True
  end ->
  Str.span Str.isDigit (digits ++ rest) = (digits, rest).
Proof.
  intros Hd Hr. induction digits as [|c r IH]; cbn [append Str.span].
  - destruct rest as [|c r]; [reflexivity|]. cbn [Str.span]. rewrite Hr. reflexivity.
  - cbn [allDigits] in Hd. apply andb_true_iff in Hd as [Hc Hrest].
    rewrite Hc, (IH Hrest). reflexivity.
Qed.

Lemma append_empty (s : string) : s ++ "" = s.
Proof.
  induction s as [|c r IH]; cbn [append]; [reflexivity|]. rewrite IH. reflexivity.
Qed.

Lemma length_digits_nonzero (c : ascii) (r tail : string) :
  (String.length (String c r) + String.length tail =? 0)%nat = false.
Proof. reflexivity. Qed.

(** [parseFloat] of digits, a dot and digits. *)
Lemma parseFloat_decimal (whole frac : string) :
  allDigits whole = true -> whole <> "" -> allDigits frac = true ->
  parseFloat (whole ++ String "." frac)
  = Num.ofDecimal false (Str.decimalValue (whole ++ frac))
      (- Z.of_nat (String.length frac)).
Proof.
  intros Hw Hne Hf. destruct whole as [|c w]; [contradiction|].
  pose proof Hw as Hc. cbn [allDigits] in Hc. apply andb_true_iff in Hc as [Hc _].
  unfold parseFloat. cbn [append].
  rewrite (trimStart_digit c _ Hc), (sign_digit c _ Hc).
  cbv beta iota. rewrite (prefix_Infinity_digit c _ Hc).
  change (String c (w ++ String "." frac)) with (String c w ++ String "." frac).
  rewrite (span_digits (String c w) (String "." frac) Hw eq_refl).
  cbv beta iota.
  rewrite <- (append_empty frac) at 1.
  rewrite (span_digits frac "" Hf I).
  cbv beta iota. rewrite length_digits_nonzero. reflexivity.
Qed.

(** [parseFloat] of digits alone. *)
Lemma parseFloat_integer (whole : string) :
  allDigits whole = true -> whole <> "" ->
  parseFloat whole = Num.ofDecimal false (Str.decimalValue whole) 0.
Proof.
  intros Hw Hne. destruct whole as [|c w]; [contradiction|].
  pose proof Hw as Hc. cbn [allDigits] in Hc. apply andb_true_iff in Hc as [Hc _].
  unfold parseFloat.
  rewrite (trimStart_digit c _ Hc), (sign_digit c _ Hc).
  cbv beta iota. rewrite (prefix_Infinity_digit c _ Hc).
  rewrite <- (append_empty (String c w)) at 1.
  rewrite (span_digits (String c w) "" Hw I).
  cbv beta iota. rewrite length_digits_nonzero, append_empty. reflexivity.
Qed.

Lemma removeDots_app (a b : string) :
  Str.removeDots (a ++ b) = Str.removeDots a ++ Str.removeDots b.
Proof.
  induction a as [|c r IH]; cbn [append Str.removeDots]; [reflexivity|].
  destruct (Ascii.eqb c "."); [exact IH|]. cbn [append]. rewrite IH. reflexivity.
Qed.

Lemma removeDots_digits (s : string) :
  allDigits s = true -> Str.removeDots s = s.
Proof.
  induction s as [|c r IH]; cbn [allDigits Str.removeDots]; [reflexivity|].
  intros H. apply andb_true_iff in H as [Hc Hr].
  rewrite (digit_not_char c "." Hc eq_refl), (IH Hr). reflexivity.
Qed.

Lemma removeDots_allDigits (s : string) :
  digitsOrDots s = true -> allDigits (Str.removeDots s) = true.
Proof.
  induction s as [|c r IH]; cbn [digitsOrDots Str.removeDots]; [reflexivity|].
  intros H. apply andb_true_iff in H as [Hc Hr].
  destruct (Ascii.eqb c ".") eqn:E; [exact (IH Hr)|].
  rewrite orb_false_r in Hc. cbn [allDigits]. rewrite Hc, (IH Hr). reflexivity.
Qed.

Lemma allDigits_commaFree (s : string) :
  allDigits s = true -> commaFree s = true.
Proof.
  induction s as [|c r IH]; cbn [allDigits commaFree]; [reflexivity|].
  intros H. apply andb_true_iff in H as [Hc Hr].
  rewrite (digit_not_char c "," Hc eq_refl), (IH Hr). reflexivity.
Qed.

(** X8.  On an amount in the bureau's format, an integer part of digits
    and thousands dots (at least one digit), optionally followed by a comma
    and decimal digits, parseMonetaryValue is the Number value of the
    digits of both parts scaled by ten to minus the number of decimals. *)
Theorem X8_amounts_are_read (whole frac : string) :
  digitsOrDots whole = true ->
  Str.removeDots whole <> "" ->
  allDigits frac = true ->
  parseMonetaryValue (VStr (whole ++ String "," frac))
  = Num.ofDecimal false (Str.decimalValue (Str.removeDots whole ++ frac))
      (- Z.of_nat (String.length frac))
  /\ parseMonetaryValue (VStr whole)
     = Num.ofDecimal false (Str.decimalValue (Str.removeDots whole)) 0.
Proof.
  intros Hw Hne Hf. pose proof (removeDots_allDigits whole Hw) as Hd.
  cbn [parseMonetaryValue]. split.
  - rewrite removeDots_app. cbn [Str.removeDots Ascii.eqb Bool.eqb].
    rewrite (removeDots_digits frac Hf).
    rewrite (replaceFirstComma_first _ _ (allDigits_commaFree _ Hd)).
    apply parseFloat_decimal; assumption.
  - rewrite (replaceFirstComma_none _ (allDigits_commaFree _ Hd)).
    apply parseFloat_integer; assumption.
Qed.

Lemma X8_amounts_are_read_witness :
  parseMonetaryValue (VStr ("1.234.567" ++ String "," "89")) = n1234567_89
  /\ parseMonetaryValue (VStr "1.000") = Num.ofZ 1000.
Proof.
  split.
  - destruct (X8_amounts_are_read "1.234.567" "89" eq_refl) as [Hdec _];
      [discriminate|reflexivity|].
    rewrite Hdec. vm_compute. reflexivity.
  - destruct (X8_amounts_are_read "1.000" "" eq_refl) as [_ Hint];
      [discriminate|reflexivity|].
    rewrite Hint. vm_compute. reflexivity.
Defined.

(** X9.  A dot is never read as a decimal point: an amount reads the same
    with a dot inserted anywhere, so that an amount written with a decimal
    dot is read as the integer of all its digits. *)
Theorem X9_dots_are_dropped (before after : string) :
  parseMonetaryValue (VStr (before ++ String "." after))
  = parseMonetaryValue (VStr (before ++ after)).
Proof.
  cbn [parseMonetaryValue]. rewrite !removeDots_app.
  cbn [Str.removeDots Ascii.eqb Bool.eqb]. reflexivity.
Qed.

Example decimal_dot_misread :
  parseMonetaryValue (VStr "1234.56") = Num.ofZ 123456.
Proof. vm_compute. reflexivity. Qed.

(** ** The address *)

Lemma visible_not_space (c : ascii) :
  visible c = true -> (Str.code c < 128)%N /\ Str.ws1 (Str.code c) = false.
Proof.
  unfold visible. rewrite andb_true_iff, !N.leb_le. intros [Hlo Hhi].
  split; [lia|].
  unfold Str.ws1. destruct (N.leb_spec 9 (Str.code c)), (N.leb_spec (Str.code c) 13),
    (N.eqb_spec (Str.code c) 32); cbn; try reflexivity; lia.
Qed.

Lemma trim_visible_ends (s : string) (a c : ascii) (mid : list ascii) :
  list_ascii_of_string s = (a :: mid ++ [c])%list ->
  visible a = true -> visible c = true ->
  Str.trim s = s.
Proof.
  intros Hs Ha Hc.
  destruct (visible_not_space a Ha) as [Ha1 Ha2].
  destruct (visible_not_space c Hc) as [Hc1 Hc2].
  unfold Str.trim. rewrite Hs.
  rewrite (dropWs_head a _ Ha1 Ha2).
  change (a :: mid ++ [c])%list with ((a :: mid) ++ [c])%list.
  rewrite rev_unit, (dropWsRev_head c _ Hc1 Hc2).
  rewrite <- rev_unit, rev_involutive.
  change ((a :: mid) ++ [c])%list with (a :: mid ++ [c])%list.
  rewrite <- Hs. apply string_of_list_ascii_of_string.
Qed.

Lemma template_bytes (a c : ascii) (streetType streetName number_ : string) :
  list_ascii_of_string
    (String a streetType ++ " " ++ streetName ++ ", " ++ number_ ++ String c "")
  = (a :: (list_ascii_of_string streetType ++ " "%char
             :: list_ascii_of_string streetName ++ ","%char :: " "%char
             :: list_ascii_of_string number_) ++ [c])%list.
Proof.
  cbn [append list_ascii_of_string]. f_equal.
  rewrite list_ascii_of_string_app. cbn [list_ascii_of_string].
  rewrite list_ascii_of_string_app. cbn [list_ascii_of_string].
  rewrite list_ascii_of_string_app. cbn [list_ascii_of_string].
  rewrite <- app_assoc. cbn [app]. do 2 f_equal.
  rewrite <- app_assoc. reflexivity.
Qed.

Lemma toString_string_or_empty (str : string) :
  toString (or_else (VStr str) (VStr "")) = Ok str.
Proof.
  destruct str; reflexivity.
Qed.

(** X10.  When the three address parts are strings, the street type
    starting and the number ending with a printable character other than
    the space, the address is exactly the street type, a space, the street
    name, a comma and a space, and the number. *)
Theorem X10_complete_address (inputData : value) (a c : ascii)
  (streetType streetName number_ : string) :
  coercionsSucceed inputData = true ->
  getOpt (localizacaoOf inputData) "TIPOLOGRADOURO" = VStr (String a streetType) ->
  getOpt (localizacaoOf inputData) "NOMELOGRADOURO" = VStr streetName ->
  getOpt (localizacaoOf inputData) "NUMEROLOGRADOURO" = VStr (number_ ++ String c "") ->
  visible a = true ->
  visible c = true ->
  exists p,
    cleanCreditData inputData = Ok p
    /\ address (location p)
       = String a streetType ++ " " ++ streetName ++ ", " ++ number_ ++ String c "".
Proof.
  intros H H1 H2 H3 Ha Hc. pose proof (creditReportOf_truthy inputData) as Ht.
  pose proof (cleanCreditData_assembled inputData H) as Hasm. cbv zeta in Hasm.
  destruct Hasm as (pp & pg & ad & q1 & q2 & q3 & _ & _ & Haddr & _ & _ & _ & Hp).
  eexists. split; [exact Hp|]. cbn [assemble location address].
  rewrite (addressOf_truthy _ Ht) in Haddr. cbv zeta in Haddr.
  unfold localizacaoOf in H1, H2, H3. rewrite H1, H2, H3 in Haddr.
  rewrite !toString_string_or_empty in Haddr. cbn [bind] in Haddr.
  inversion Haddr as [Had]. clear Haddr.
  exact (trim_visible_ends _ a c _
           (template_bytes a c streetType streetName number_) Ha Hc).
Qed.

Lemma X10_complete_address_witness :
  exists p,
    cleanCreditData fullAddress = Ok p
    /\ address (location p) = "Rua das Flores, 10".
Proof.
  exact (X10_complete_address fullAddress "R" "0" "ua" "das Flores" "1"
           eq_refl eq_refl eq_refl eq_refl eq_refl eq_refl).
Defined.

Section HeadClear.

Variable p1 : N -> bool.
Variable p2 : N -> N -> bool.
Variable p3 : N -> N -> N -> bool.

Lemma dropEncoded_length (l : list ascii) :
  (List.length (Str.dropEncoded p1 p2 p3 l) <= List.length l)%nat.
Proof.
  destruct (dropEncoded_segments p1 p2 p3 (List.length l) l (le_n _))
    as (segs & Hl & _).
  rewrite Hl at 2. rewrite length_app. lia.
Qed.

Lemma headClear_fixed (l : list ascii) :
  headClear p1 p2 p3 l -> Str.dropEncoded p1 p2 p3 l = l.
Proof.
  destruct l as [|a [|b [|c r]]]; cbn [headClear Str.dropEncoded].
  - reflexivity.
  - intros [-> _]. reflexivity.
  - intros (-> & -> & _). reflexivity.
  - intros (-> & -> & ->). reflexivity.
Qed.

Lemma fixed_headClear (l : list ascii) :
  Str.dropEncoded p1 p2 p3 l = l -> headClear p1 p2 p3 l.
Proof.
  destruct l as [|a t]; [intros _; exact I|].
  cbn [Str.dropEncoded headClear].
  destruct (p1 (Str.code a)).
  { intros E. pose proof (dropEncoded_length t) as Hlen.
    rewrite E in Hlen. cbn [List.length] in Hlen. lia. }
  intros E. split; [reflexivity|].
  destruct t as [|b t2]; [exact I|].
  destruct (p2 (Str.code a) (Str.code b)).
  { pose proof (dropEncoded_length t2) as Hlen.
    rewrite E in Hlen. cbn [List.length] in Hlen. lia. }
  split; [reflexivity|].
  destruct t2 as [|c t3]; [exact I|].
  destruct (p3 (Str.code a) (Str.code b) (Str.code c)); [|reflexivity].
  pose proof (dropEncoded_length t3) as Hlen.
  rewrite E in Hlen. cbn [List.length] in Hlen. lia.
Qed.

Lemma headClear_prefix (u w : list ascii) :
  headClear p1 p2 p3 (u ++ w)%list -> headClear p1 p2 p3 u.
Proof.
  destruct u as [|a [|b [|c r]]]; cbn [app headClear].
  - intros _. exact I.
  - intros [H _]. split; [exact H|exact I].
  - intros (H1 & H2 & _). split; [exact H1|]. split; [exact H2|exact I].
  - intros H. exact H.
Qed.

Lemma dropEncoded_headClear (n : nat) :
  forall l, (List.length l <= n)%nat ->
  headClear p1 p2 p3 (Str.dropEncoded p1 p2 p3 l).
Proof.
  induction n as [|n IH]; intros l Hlen.
  - destruct l; [exact I|cbn in Hlen; lia].
  - destruct l as [|a r1]; [exact I|].
    cbn [Str.dropEncoded]. cbn [List.length] in Hlen.
    destruct (p1 (Str.code a)) eqn:E1; [apply IH; lia|].
    destruct r1 as [|b r2]; [cbn [headClear]; rewrite E1; split; [reflexivity|exact I]|].
    cbn [List.length] in Hlen.
    destruct (p2 (Str.code a) (Str.code b)) eqn:E2; [apply IH; lia|].
    destruct r2 as [|c r3];
      [cbn [headClear]; rewrite E1, E2; repeat split|].
    destruct (p3 (Str.code a) (Str.code b) (Str.code c)) eqn:E3;
      [apply IH; cbn [List.length] in Hlen; lia|].
    cbn [headClear]. rewrite E1, E2, E3. repeat split.
Qed.

End HeadClear.

(** [trim] leaves a trimmed string as it is. *)
Lemma trim_trim (s : string) : Str.trim (Str.trim s) = Str.trim s.
Proof.
  unfold Str.trim at 2.
  set (m := Str.dropWs (list_ascii_of_string s)).
  set (core := List.rev (Str.dropWsRev (List.rev m))).
  assert (Hm : headClear Str.ws1 Str.ws2 Str.ws3 m)
    by (apply (dropEncoded_headClear _ _ _ _ _ (le_n _))).
  assert (Hrev : headClear Str.ws1 (fun a b => Str.ws2 b a)
                   (fun a b c => Str.ws3 c b a) (List.rev core)).
  { unfold core. rewrite rev_involutive.
    apply (dropEncoded_headClear _ _ _ _ _ (le_n _)). }
  assert (Hsplit : exists post, m = (core ++ post)%list).
  { destruct (dropEncoded_segments Str.ws1 (fun a b => Str.ws2 b a)
                (fun a b c => Str.ws3 c b a) (List.length (List.rev m))
                (List.rev m) (le_n _)) as (back & Hback & _).
    fold Str.dropWsRev in Hback.
    exists (List.rev (List.concat back)). unfold core.
    rewrite <- rev_app_distr, <- Hback, rev_involutive. reflexivity. }
  destruct Hsplit as [post Hpost].
  assert (Hcore : headClear Str.ws1 Str.ws2 Str.ws3 core).
  { apply (headClear_prefix _ _ _ core post). rewrite <- Hpost. exact Hm. }
  unfold Str.trim. rewrite list_ascii_of_string_of_list_ascii.
  unfold Str.dropWs at 1. rewrite (headClear_fixed _ _ _ core Hcore).
  unfold Str.dropWsRev at 1. rewrite (headClear_fixed _ _ _ _ Hrev).
  rewrite rev_involutive. reflexivity.
Qed.

(** X11.  The address of a returned payload carries no white space at
    either end: trimming it again changes nothing. *)
Theorem X11_address_is_trimmed (inputData : value) (p : AiContextPayload) :
  cleanCreditData inputData = Ok p ->
  Str.trim (address (location p)) = address (location p).
Proof.
  intros Hp. pose proof (creditReportOf_truthy inputData) as Ht.
  apply cleanCreditData_inv in Hp. cbv zeta in Hp.
  destruct Hp as (pp & pg & a & q1 & q2 & q3 & _ & _ & Haddr & _ & _ & _ & ->).
  cbn [assemble location address].
  rewrite (addressOf_truthy _ Ht) in Haddr. cbv zeta in Haddr.
  bind_ok Haddr s1 Hs1. bind_ok Haddr s2 Hs2. bind_ok Haddr s3 Hs3.
  inversion Haddr. apply trim_trim.
Qed.

Lemma X11_address_is_trimmed_witness :
  exists p,
    cleanCreditData paddedAddress = Ok p
    /\ address (location p) = "Rua , 10"
    /\ Str.trim (address (location p)) = address (location p).
Proof.
  destruct (cleanCreditData_returns paddedAddress eq_refl) as [p Hp].
  exists p. split; [exact Hp|]. split.
  - vm_compute in Hp. inversion Hp. reflexivity.
  - exact (X11_address_is_trimmed paddedAddress p Hp).
Defined.

(** ** Quantities *)

Lemma radix_of_digits (u : string) :
  allDigits u = true ->
  match u with
  | String "0" (String c r) =>
      if Ascii.eqb c "x" || Ascii.eqb c "X" then (16, r) else (10, u)
  | _ => (10, u)
  end = (10, u).
Proof.
  intros H. destruct u as [|a t]; [reflexivity|].
  destruct t as [|b r]; [destruct a as [[] [] [] [] [] [] [] []]; reflexivity|].
  destruct a as [[] [] [] [] [] [] [] []]; try reflexivity.
  cbn [allDigits] in H. apply andb_true_iff in H as [_ H].
  apply andb_true_iff in H as [Hb _].
  rewrite (digit_not_char b "x" Hb eq_refl), (digit_not_char b "X" Hb eq_refl).
  reflexivity.
Qed.

(** [parseInt] of a string of decimal digits. *)
Lemma parseIntString_digits (digits : string) :
  allDigits digits = true -> digits <> "" ->
  parseIntString digits = integerOf digits.
Proof.
  intros Hd Hne. destruct digits as [|c w]; [contradiction|].
  pose proof Hd as Hc. cbn [allDigits] in Hc. apply andb_true_iff in Hc as [Hc _].
  unfold parseIntString.
  rewrite (trimStart_digit c _ Hc), (sign_digit c _ Hc).
  cbv beta iota. rewrite (radix_of_digits _ Hd).
  cbv beta iota. change (10 =? 16) with false. cbv iota.
  rewrite <- (append_empty (String c w)) at 1.
  rewrite (span_digits (String c w) "" Hd I).
  reflexivity.
Qed.

Lemma shr_1_nonneg (mrs : shr_record) :
  0 <= shr_m mrs -> 0 <= shr_m (shr_1 mrs).
Proof.
  destruct mrs as [m r s]. cbn [shr_m]. intros H.
  destruct m as [|q|q]; [cbn; lia| |lia].
  destruct q; cbn; lia.
Qed.

Lemma iter_shr_1_nonneg (n : positive) :
  forall mrs, 0 <= shr_m mrs -> 0 <= shr_m (iter_pos shr_1 n mrs).
Proof.
  induction n as [n IH|n IH|]; intros mrs H; cbn [iter_pos].
  - apply IH, IH, shr_1_nonneg, H.
  - apply IH, IH, H.
  - apply shr_1_nonneg, H.
Qed.

Lemma shr_fexp_nonneg (m e : Z) (l : SpecFloat.location) :
  0 <= m -> 0 <= shr_m (fst (shr_fexp Num.prec Num.emax m e l)).
Proof.
  intros H. unfold shr_fexp, shr.
  assert (H0 : 0 <= shr_m (shr_record_of_loc m l)).
  { destruct l as [|[]]; exact H. }
  destruct (fexp Num.prec Num.emax (Zdigits2 m + e) - e) as [|n|n];
    cbn [fst]; [exact H0| |exact H0].
  apply iter_shr_1_nonneg, H0.
Qed.

Lemma round_nearest_even_nonneg (m : Z) (l : SpecFloat.location) :
  0 <= m -> 0 <= round_nearest_even m l.
Proof.
  intros H. destruct l as [|[]]; cbn [round_nearest_even]; try exact H; [|lia].
  destruct (Z.even m); lia.
Qed.

Lemma orZero_binary_round (m e : Z) (l : SpecFloat.location) :
  0 <= m ->
  orZero (binary_round_aux Num.prec Num.emax false m e l)
  = binary_round_aux Num.prec Num.emax false m e l.
Proof.
  intros H. unfold binary_round_aux.
  pose proof (shr_fexp_nonneg m e l H) as H1.
  destruct (shr_fexp Num.prec Num.emax m e l) as [mrs' e']. cbn [fst] in H1.
  pose proof (shr_fexp_nonneg _ e' loc_Exact
                (round_nearest_even_nonneg _ (loc_of_shr_record mrs') H1)) as H2.
  destruct (shr_fexp Num.prec Num.emax _ e' loc_Exact) as [mrs'' e'']. cbn [fst] in H2.
  destruct (shr_m mrs'') as [|q|q]; [reflexivity| |lia].
  destruct (e'' <=? Num.emax - Num.prec); reflexivity.
Qed.

Lemma digitValue_nonneg (c : ascii) : 0 <= Str.digitValue c.
Proof.
  unfold Str.digitValue, Str.isDigit.
  destruct (N.leb_spec 48 (Str.code c)), (N.leb_spec (Str.code c) 57);
    cbn [andb]; try lia;
    destruct (N.leb_spec 97 (Str.code c)), (N.leb_spec (Str.code c) 102);
    cbn [andb]; try lia;
    destruct (N.leb_spec 65 (Str.code c)), (N.leb_spec (Str.code c) 70);
    cbn [andb]; lia.
Qed.

Lemma valueFrom_nonneg (s : string) :
  forall acc, 0 <= acc -> 0 <= Str.valueFrom 10 acc s.
Proof.
  induction s as [|c r IH]; intros acc H; cbn [Str.valueFrom]; [exact H|].
  apply IH. pose proof (digitValue_nonneg c). lia.
Qed.

(** The integer of a digit string is never NaN or a negative zero: [|| 0]
    leaves it as it is. *)
Lemma orZero_integerOf (digits : string) :
  orZero (integerOf digits) = integerOf digits.
Proof.
  unfold integerOf, Num.roundRatio.
  pose proof (valueFrom_nonneg digits 0 (Z.le_refl 0)) as Hv.
  fold (Str.decimalValue digits) in Hv.
  destruct (Str.decimalValue digits =? 0); [reflexivity|].
  set (k := Z.max 0 (Z.log2 1 - Z.log2 (Str.decimalValue digits) + 56)).
  destruct (Z.div_eucl (Z.shiftl (Str.decimalValue digits) k) 1) as [q r] eqn:E.
  apply orZero_binary_round.
  assert (Hq : q = Z.shiftl (Str.decimalValue digits) k / 1)
    by (unfold Z.div; rewrite E; reflexivity).
  rewrite Hq, Z.div_1_r. apply Z.shiftl_nonneg. exact Hv.
Qed.

Lemma parseInt_digits (digits : string) :
  allDigits digits = true -> digits <> "" ->
  parseInt (VStr digits) = Ok (integerOf digits).
Proof.
  intros Hd Hne. unfold parseInt. cbn [toString bind].
  rewrite (parseIntString_digits digits Hd Hne). reflexivity.
Qed.

Lemma counter_digits (digits : string) :
  allDigits digits = true -> digits <> "" ->
  parseInt (or_else (VStr digits) (VStr "0")) = Ok (integerOf digits).
Proof.
  intros Hd Hne. destruct digits as [|c w]; [contradiction|].
  apply parseInt_digits; assumption.
Qed.

(** X12.  A quantity held as a non-empty string of decimal digits is read
    as the integer it denotes: each of protestsQty, legalActionsQty and
    bouncedChecksQty is that integer, and totalDebtsQty is the sum of the
    integers of the principal and guarantor quantities. *)
Theorem X12_digit_quantities (inputData : value) :
  coercionsSucceed inputData = true ->
  let report := creditReportOf inputData in
  exists p,
    cleanCreditData inputData = Ok p
    /\ (forall principal guarantor,
          getOpt (debitSummaryOf inputData) "TOTALDEVEDOR" = VStr principal ->
          getOpt (debitSummaryOf inputData) "TOTALAVALISTA" = VStr guarantor ->
          allDigits principal = true -> principal <> "" ->
          allDigits guarantor = true -> guarantor <> "" ->
          totalDebtsQty (financialSummary p)
          = Num.add (integerOf principal) (integerOf guarantor))
    /\ (forall digits,
          getOpt (own report "RESUMO-TITULOS-PROTESTADOS") "TOTAL" = VStr digits ->
          allDigits digits = true -> digits <> "" ->
          protestsQty (financialSummary p) = integerOf digits)
    /\ (forall digits,
          getOpt (own report "RESUMO-DE-ACOES-CIVEIS") "QUANTIDADE" = VStr digits ->
          allDigits digits = true -> digits <> "" ->
          legalActionsQty (financialSummary p) = integerOf digits)
    /\ (forall digits,
          getOpt (own report "RESUMO-DEVOLUCOES-INFORMADAS-PELO-CCF") "TOTALOCORRENCAS"
          = VStr digits ->
          allDigits digits = true -> digits <> "" ->
          bouncedChecksQty (financialSummary p) = integerOf digits).
Proof.
  intros H. pose proof (creditReportOf_truthy inputData) as Ht.
  pose proof (cleanCreditData_assembled inputData H) as Ha. cbv zeta in *.
  destruct Ha as (pp & pg & a & q1 & q2 & q3 & Hpp & Hpg & _ & Hq1 & Hq2 & Hq3 & Hp).
  rewrite (countOf_truthy _ _ _ Ht) in Hq1.
  rewrite (countOf_truthy _ _ _ Ht) in Hq2.
  rewrite (countOf_truthy _ _ _ Ht) in Hq3.
  eexists. split; [exact Hp|].
  cbn [assemble financialSummary totalDebtsQty protestsQty legalActionsQty
         bouncedChecksQty].
  split; [|split; [|split]].
  - intros d1 d2 E1 E2 Hd1 Hn1 Hd2 Hn2. unfold debitSummaryOf in E1, E2.
    rewrite E1, (parseInt_digits d1 Hd1 Hn1) in Hpp.
    rewrite E2, (parseInt_digits d2 Hd2 Hn2) in Hpg.
    inversion Hpp. inversion Hpg. rewrite !orZero_integerOf. reflexivity.
  - intros d E Hd Hn. rewrite E, (counter_digits d Hd Hn) in Hq1.
    inversion Hq1. reflexivity.
  - intros d E Hd Hn. rewrite E, (counter_digits d Hd Hn) in Hq2.
    inversion Hq2. reflexivity.
  - intros d E Hd Hn. rewrite E, (counter_digits d Hd Hn) in Hq3.
    inversion Hq3. reflexivity.
Qed.

Lemma X12_digit_quantities_witness :
  exists p,
    cleanCreditData countedReport = Ok p
    /\ totalDebtsQty (financialSummary p) = Num.ofZ 42
    /\ protestsQty (financialSummary p) = Num.ofZ 7
    /\ legalActionsQty (financialSummary p) = Num.zero
    /\ bouncedChecksQty (financialSummary p) = Num.ofZ 105.
Proof.
  destruct (X12_digit_quantities countedReport eq_refl)
    as (p & Hp & Hdebit & Hprot & Hlegal & Hcheck).
  exists p. split; [exact Hp|].
  split; [|split; [|split]].
  - rewrite (Hdebit "12" "030" eq_refl eq_refl eq_refl ltac:(discriminate)
               eq_refl ltac:(discriminate)).
    vm_compute. reflexivity.
  - rewrite (Hprot "7" eq_refl eq_refl ltac:(discriminate)). vm_compute. reflexivity.
  - rewrite (Hlegal "0" eq_refl eq_refl ltac:(discriminate)). vm_compute. reflexivity.
  - rewrite (Hcheck "105" eq_refl eq_refl ltac:(discriminate)). vm_compute. reflexivity.
Defined.

Lemma falsy_debit_quantity (v : value) :
  truthy v = false -> exists n, parseInt v = Ok n /\ orZero n = Num.zero.
Proof.
  destruct v as [| |b|n|str|items|fields]; cbn [truthy]; intros H;
    try discriminate.
  - eexists. split; vm_compute; reflexivity.
  - eexists. split; vm_compute; reflexivity.
  - subst b. eexists. split; vm_compute; reflexivity.
  - destruct n as [s| | |]; try discriminate.
    + destruct s; eexists; split; vm_compute; reflexivity.
    + eexists. split; vm_compute; reflexivity.
  - destruct str; [|discriminate]. eexists. split; vm_compute; reflexivity.
Qed.

Lemma falsy_counter (v : value) :
  truthy v = false -> parseInt (or_else v (VStr "0")) = Ok Num.zero.
Proof.
  intros H. unfold or_else. rewrite H. vm_compute. reflexivity.
Qed.

Lemma not_a_string_value (v : value) :
  (forall str, v <> VStr str) -> parseMonetaryValue v = Num.zero.
Proof.
  intros H. destruct v as [| | | |str| |]; try reflexivity.
  exfalso. exact (H str eq_refl).
Qed.

(** X13.  Missing figures count as zero.  A quantity that is absent or
    otherwise falsy (null, [false], [0], NaN, the empty string) gives [0]
    in its counter, and totalDebtsQty is [0] when both debit quantities
    are so; a monetary field that is not a string gives [0], and
    totalDebtsValue is [0] when neither debit value is a string. *)
Theorem X13_missing_figures_are_zero (inputData : value) :
  coercionsSucceed inputData = true ->
  let report := creditReportOf inputData in
  exists p,
    cleanCreditData inputData = Ok p
    /\ (truthy (getOpt (debitSummaryOf inputData) "TOTALDEVEDOR") = false ->
        truthy (getOpt (debitSummaryOf inputData) "TOTALAVALISTA") = false ->
        totalDebtsQty (financialSummary p) = Num.zero)
    /\ (truthy (getOpt (own report "RESUMO-TITULOS-PROTESTADOS") "TOTAL") = false ->
        protestsQty (financialSummary p) = Num.zero)
    /\ (truthy (getOpt (own report "RESUMO-DE-ACOES-CIVEIS") "QUANTIDADE") = false ->
        legalActionsQty (financialSummary p) = Num.zero)
    /\ (truthy (getOpt (own report "RESUMO-DEVOLUCOES-INFORMADAS-PELO-CCF")
                  "TOTALOCORRENCAS") = false ->
        bouncedChecksQty (financialSummary p) = Num.zero)
    /\ ((forall str, getOpt (debitSummaryOf inputData) "VALORACOMULADO" <> VStr str) ->
        (forall str, getOpt (debitSummaryOf inputData) "VALORAVALISTA" <> VStr str) ->
        totalDebtsValue (financialSummary p) = Num.zero)
    /\ ((forall str,
           getOpt (own report "RESUMO-TITULOS-PROTESTADOS") "VALORACUMULADO"
           <> VStr str) ->
        protestsValue (financialSummary p) = Num.zero).
Proof.
  intros H. pose proof (creditReportOf_truthy inputData) as Ht.
  pose proof (cleanCreditData_assembled inputData H) as Ha. cbv zeta in *.
  destruct Ha as (pp & pg & a & q1 & q2 & q3 & Hpp & Hpg & _ & Hq1 & Hq2 & Hq3 & Hp).
  rewrite (countOf_truthy _ _ _ Ht) in Hq1.
  rewrite (countOf_truthy _ _ _ Ht) in Hq2.
  rewrite (countOf_truthy _ _ _ Ht) in Hq3.
  eexists. split; [exact Hp|].
  cbn [assemble financialSummary totalDebtsQty totalDebtsValue protestsQty
         protestsValue legalActionsQty bouncedChecksQty].
  unfold debitSummaryOf.
  split; [|split; [|split; [|split; [|split]]]].
  - intros F1 F2.
    destruct (falsy_debit_quantity _ F1) as (n1 & E1 & Z1).
    destruct (falsy_debit_quantity _ F2) as (n2 & E2 & Z2).
    rewrite E1 in Hpp. rewrite E2 in Hpg. inversion Hpp. inversion Hpg.
    subst pp pg. rewrite Z1, Z2. reflexivity.
  - intros F. rewrite (falsy_counter _ F) in Hq1. inversion Hq1. reflexivity.
  - intros F. rewrite (falsy_counter _ F) in Hq2. inversion Hq2. reflexivity.
  - intros F. rewrite (falsy_counter _ F) in Hq3. inversion Hq3. reflexivity.
  - intros N1 N2. rewrite (not_a_string_value _ N1), (not_a_string_value _ N2).
    reflexivity.
  - intros N. apply not_a_string_value, N.
Qed.

Lemma X13_missing_figures_are_zero_witness :
  exists p,
    cleanCreditData emptySummaries = Ok p
    /\ totalDebtsQty (financialSummary p) = Num.zero
    /\ protestsQty (financialSummary p) = Num.zero
    /\ legalActionsQty (financialSummary p) = Num.zero
    /\ totalDebtsValue (financialSummary p) = Num.zero
    /\ protestsValue (financialSummary p) = Num.zero.
Proof.
  destruct (X13_missing_figures_are_zero emptySummaries eq_refl)
    as (p & Hp & Hqty & Hprot & Hlegal & _ & Hval & Hpval).
  exists p. split; [exact Hp|].
  split; [apply Hqty; reflexivity|].
  split; [apply Hprot; reflexivity|].
  split; [apply Hlegal; reflexivity|].
  split; [apply Hval; intros str; discriminate|].
  apply Hpval. intros str. discriminate.
Defined.

Lemma add_nan_left (y : number) : Num.add Num.nan y = Num.nan.
Proof. reflexivity. Qed.

Lemma add_nan_right (x : number) : Num.add x Num.nan = Num.nan.
Proof. destruct x; reflexivity. Qed.

Lemma isNaN_eq (n : number) : Num.isNaN n = true -> n = Num.nan.
Proof. destruct n; try discriminate. reflexivity. Qed.

Lemma counter_string (str : string) :
  str <> "" -> parseInt (or_else (VStr str) (VStr "0")) = Ok (parseIntString str).
Proof.
  intros H. destruct str; [contradiction|reflexivity].
Qed.

(** X14.  Figures that cannot be read surface as NaN.  totalDebtsValue is
    NaN as soon as one of the two debit values parses to NaN, whatever the
    other is; and each of protestsQty, legalActionsQty and bouncedChecksQty
    is [parseInt] of its field when that is a non-empty string, with no
    default applied to the result. *)
Theorem X14_unreadable_figures_are_NaN (inputData : value) (p : AiContextPayload) :
  cleanCreditData inputData = Ok p ->
  let report := creditReportOf inputData in
  (Num.isNaN (parseMonetaryValue (getOpt (debitSummaryOf inputData) "VALORACOMULADO"))
   || Num.isNaN (parseMonetaryValue (getOpt (debitSummaryOf inputData) "VALORAVALISTA"))
   = true ->
   totalDebtsValue (financialSummary p) = Num.nan)
  /\ (forall str,
        getOpt (own report "RESUMO-TITULOS-PROTESTADOS") "TOTAL" = VStr str ->
        str <> "" ->
        protestsQty (financialSummary p) = parseIntString str)
  /\ (forall str,
        getOpt (own report "RESUMO-DE-ACOES-CIVEIS") "QUANTIDADE" = VStr str ->
        str <> "" ->
        legalActionsQty (financialSummary p) = parseIntString str)
  /\ (forall str,
        getOpt (own report "RESUMO-DEVOLUCOES-INFORMADAS-PELO-CCF") "TOTALOCORRENCAS"
        = VStr str ->
        str <> "" ->
        bouncedChecksQty (financialSummary p) = parseIntString str).
Proof.
  intros Hp. pose proof (creditReportOf_truthy inputData) as Ht.
  apply cleanCreditData_inv in Hp. cbv zeta in *.
  destruct Hp as (pp & pg & a & q1 & q2 & q3 & _ & _ & _ & Hq1 & Hq2 & Hq3 & ->).
  rewrite (countOf_truthy _ _ _ Ht) in Hq1.
  rewrite (countOf_truthy _ _ _ Ht) in Hq2.
  rewrite (countOf_truthy _ _ _ Ht) in Hq3.
  cbn [assemble financialSummary totalDebtsValue protestsQty legalActionsQty
         bouncedChecksQty].
  unfold debitSummaryOf.
  split; [|split; [|split]].
  - intros H. apply orb_true_iff in H as [H|H]; apply isNaN_eq in H; rewrite H.
    + apply add_nan_left.
    + apply add_nan_right.
  - intros str E Hne. rewrite E, (counter_string str Hne) in Hq1.
    inversion Hq1. reflexivity.
  - intros str E Hne. rewrite E, (counter_string str Hne) in Hq2.
    inversion Hq2. reflexivity.
  - intros str E Hne. rewrite E, (counter_string str Hne) in Hq3.
    inversion Hq3. reflexivity.
Qed.

Lemma X14_unreadable_figures_are_NaN_witness :
  (exists p,
     cleanCreditData unparsableDebtValue = Ok p
     /\ totalDebtsValue (financialSummary p) = Num.nan)
  /\ (exists p,
        cleanCreditData nonNumericCounter = Ok p
        /\ protestsQty (financialSummary p) = Num.nan).
Proof.
  split.
  - destruct (cleanCreditData_returns unparsableDebtValue eq_refl) as [p Hp].
    exists p. split; [exact Hp|].
    apply (proj1 (X14_unreadable_figures_are_NaN _ p Hp)). reflexivity.
  - destruct (cleanCreditData_returns nonNumericCounter eq_refl) as [p Hp].
    exists p. split; [exact Hp|].
    destruct (X14_unreadable_figures_are_NaN _ p Hp) as (_ & Hprot & _).
    rewrite (Hprot "abc" eq_refl ltac:(discriminate)). vm_compute. reflexivity.
Defined.

(** ** What cleanCreditData reads *)

(** X15.  cleanCreditData reads thirteen sections of the report and
    nothing else: two documents whose reports hold the same values at
    those sections give the same result, payload or exception, whatever
    else they hold. *)
Theorem X15_only_the_sections_are_read (input1 input2 : value) :
  (forall s, In s sectionsRead ->
             own (creditReportOf input1) s = own (creditReportOf input2) s) ->
  cleanCreditData input1 = cleanCreditData input2.
Proof.
  exact (cleanCreditData_sections input1 input2).
Qed.

Lemma X15_only_the_sections_are_read_witness :
  cleanCreditData reportWithMetadata
  = cleanCreditData (envelope (VObj [("DEBITOS", debitosExample)])).
Proof.
  apply X15_only_the_sections_are_read.
  intros s Hin. cbn [sectionsRead In] in Hin.
  repeat (destruct Hin as [<-|Hin]; [reflexivity|]). destruct Hin.
Defined.
